(** * Noteful API (v3a): the notes and folders route handlers

    A shallow embedding of [routes/notes.js] and [routes/folders.js].

    A route handler is embedded as a small tree: it either finishes the
    request ([res.json], [res.status(204).end()], [next(err)], [next()]) or
    issues one storage call and continues with the settled promise
    ([.then] on fulfilment, [.catch] on rejection).  The trees are run
    against a model of the document store, and the outcome is passed to
    the final stage of the application (not-found and error middleware). *)

From Stdlib Require Import String Ascii List NArith PeanoNat Bool Lia.
From Stdlib Require Import Sorting.Sorted Sorting.Permutation.
Import ListNotations.

Local Open Scope string_scope.
Local Open Scope N_scope.

(** ** JavaScript values the handlers test *)

(** A field of [req.query], [req.params] or [req.body] is either missing
    ([undefined], [None]) or a string. *)
Definition JsString := option string.

(** [if (x)] on such a field: [undefined] and [''] are falsy. *)
Definition truthy (x : JsString) : bool :=
  match x with
  | None => false
  | Some s => negb (String.eqb s "")
  end.

(** A JavaScript [Error] as the handlers build and inspect it:
    [err.message], [err.status], [err.code]. *)
Record Error := mkError {
  err_message : string;
  err_status : option N;
  err_code : option N
}.

(** [const err = new Error(msg); err.status = st;] *)
Definition new_Error_status (msg : string) (st : N) : Error :=
  mkError msg (Some st) None.

(** A settled promise: fulfilled with a value or rejected with an error. *)
Inductive Settled (A : Type) : Type :=
| Fulfilled (v : A)
| Rejected (e : Error).
Arguments Fulfilled {A} v.
Arguments Rejected {A} e.

(** ** Identifiers *)

Module ObjectId.

(** Value of one hexadecimal digit, either case. *)
Definition hex_value (c : ascii) : option N :=
  let n := N_of_ascii c in
  if (48 <=? n) && (n <=? 57) then Some (n - 48)
  else if (97 <=? n) && (n <=? 102) then Some (n - 87)
  else if (65 <=? n) && (n <=? 70) then Some (n - 55)
  else None.

(** Lower-case hexadecimal digit of a value below 16. *)
Definition hex_digit (d : N) : ascii :=
  if d <? 10 then ascii_of_N (48 + d) else ascii_of_N (87 + d).

Fixpoint all_hex (s : string) : bool :=
  match s with
  | EmptyString => true
  | String c r =>
      match hex_value c with
      | Some _ => all_hex r
      | None => false
      end
  end.

(** The shape the spec gives to identifiers, "a fixed-length hexadecimal
    format": 24 hexadecimal digits. *)
Definition hex24 (id : string) : bool :=
  Nat.eqb (String.length id) 24 && all_hex id.

(** [mongoose.Types.ObjectId.isValid] on a string (library code): the
    string is accepted when it has 12 characters, whatever they are, or is
    24 hexadecimal digits. *)
Definition isValid (id : string) : bool :=
  Nat.eqb (String.length id) 12 || hex24 id.

(** Reading a digit string, most significant digit first. *)
Fixpoint parse_from (acc : N) (s : string) : option N :=
  match s with
  | EmptyString => Some acc
  | String c r =>
      match hex_value c with
      | Some v => parse_from (16 * acc + v) r
      | None => None
      end
  end.

(** Reading a string as bytes, most significant byte first. *)
Fixpoint bytes_from (acc : N) (s : string) : N :=
  match s with
  | EmptyString => acc
  | String c r => bytes_from (256 * acc + N_of_ascii c) r
  end.

(** The cast the storage layer applies to an identifier string (library
    code): 24 hexadecimal digits are read as such, 12 characters are taken
    as the 12 bytes of the identifier, and the cast fails on a string of
    another shape. *)
Definition cast (id : string) : option N :=
  if hex24 id then parse_from 0 id
  else if Nat.eqb (String.length id) 12 then Some (bytes_from 0 id)
  else None.

(** [k] lower-case digits of [n], most significant first. *)
Fixpoint digits (k : nat) (n : N) : string :=
  match k with
  | O => EmptyString
  | S k' => digits k' (n / 16) ++ String (hex_digit (n mod 16)) EmptyString
  end.

(** Modelled from the spec: the [id] string of a stored record,
    24 hexadecimal digits. *)
Definition toHexString (n : N) : string := digits 24 n.

End ObjectId.

(** ** Data model *)

(** Modelled from the spec: the note schema ([models/note.js] is not part of
    the sources): title (required), content, optional folder reference, tag
    references, creation timestamp; a generated identifier. *)
Record Note := mkNote {
  note_id : N;
  note_title : string;
  note_content : JsString;
  note_folderId : option N;
  note_tags : list N;
  note_created : N
}.

(** Modelled from the spec: the folder schema ([models/folder.js]): a
    required and unique name; a generated identifier. *)
Record Folder := mkFolder {
  folder_id : N;
  folder_name : string
}.

(** The collections, with the generator of identifiers and the clock that
    stamps [created]. *)
Record Store := mkStore {
  notes : list Note;
  folders : list Folder;
  next_id : N;
  clock : N
}.

(** A note as serialised in a response; [None] is a key that is absent. *)
Record NoteJson := mkNoteJson {
  j_id : string;
  j_title : option string;
  j_content : option string;
  j_created : option N;
  j_folderId : option string;
  j_tags : option (list string)
}.

Record FolderJson := mkFolderJson {
  fj_id : string;
  fj_name : string
}.

Inductive Body :=
| JNotes (l : list NoteJson)
| JNote (n : NoteJson)
| JFolders (l : list FolderJson)
| JFolder (f : FolderJson)
| JMessage (m : string)
| NoBody.

(** ** Requests *)

Record ReqBody := mkBody {
  b_title : JsString;
  b_content : JsString;
  b_folderId : JsString;
  b_tags : list string;
  b_name : JsString
}.

Record Request := mkRequest {
  originalUrl : string;
  params_id : string;
  query_searchTerm : JsString;
  body : ReqBody
}.

(** ** Queries handed to the storage layer *)

(** [filter]: [{}] ([None]) or [{ $text: { $search: term } }]. *)
Record Filter := mkFilter { f_text : JsString }.

(** [projection]: [{}] or [{ score: { $meta: 'textScore' } }]. *)
Record Projection := mkProjection { p_score : bool }.

(** Argument of [.sort]: a path, or an object (the handler passes its
    projection object). *)
Inductive SortArg :=
| SortPath (path : string)
| SortDoc (p : Projection).

(** [{ title, content }] *)
Record NoteFields := mkNoteFields {
  nf_title : JsString;
  nf_content : JsString
}.

(** [{ name }] *)
Record FolderFields := mkFolderFields { ff_name : JsString }.

(** [{ new: true }] *)
Record UpdateOptions := mkOptions { opt_new : bool }.

(** ** Handlers *)

(** How a handler leaves the request. *)
Inductive Outcome :=
| ResJson (status : N) (location : option string) (b : Body)
| ResEnd (status : N)
| NextErr (e : Error)
| NextRoute.

(** A handler: done, or one storage call and what follows once its promise
    settles. *)
Inductive Handler :=
| Done (o : Outcome)
| Note_find (filter : Filter) (projection : Projection)
    (select : list string) (sort : SortArg)
    (k : Settled (list NoteJson) -> Handler)
| Note_findById (id : string) (select : list string)
    (k : Settled (option NoteJson) -> Handler)
| Note_create (item : NoteFields) (k : Settled NoteJson -> Handler)
| Note_findByIdAndUpdate (id : string) (item : NoteFields)
    (options : UpdateOptions) (select : list string)
    (k : Settled (option NoteJson) -> Handler)
| Note_findByIdAndRemove (id : string)
    (k : Settled (option NoteJson) -> Handler)
| Folder_find (sort : SortArg) (k : Settled (list FolderJson) -> Handler)
| Folder_findById (id : string) (k : Settled (option FolderJson) -> Handler)
| Folder_create (item : FolderFields) (k : Settled FolderJson -> Handler)
| Folder_findByIdAndUpdate (id : string) (item : FolderFields)
    (options : UpdateOptions) (k : Settled (option FolderJson) -> Handler)
| Folder_findByIdAndRemove (id : string)
    (k : Settled (option FolderJson) -> Handler).

(** [res.json(x)] *)
Definition res_json (b : Body) : Handler := Done (ResJson 200 None b).

(** [next(err)] and [next()] *)
Definition next_err (e : Error) : Handler := Done (NextErr e).
Definition next_route : Handler := Done NextRoute.

(** [.catch(next)] and [.catch(err => { next(err); })] *)
Definition catch_next {A} (then_ : A -> Handler) (r : Settled A) : Handler :=
  match r with
  | Fulfilled v => then_ v
  | Rejected e => next_err e
  end.

Module NotesRouter.

(** [router.get('/notes', ...)] *)
Definition get_notes (req : Request) : Handler :=
  let searchTerm := query_searchTerm req in
  let filter := mkFilter None in
  let projection := mkProjection false in
  let sort := SortPath "created" in
  let '(filter, projection, sort) :=
    if truthy searchTerm then
      let projection := mkProjection true in
      (mkFilter searchTerm, projection, SortDoc projection)
    else (filter, projection, sort) in
  Note_find filter projection ["title"; "content"; "created"] sort
    (catch_next (fun results => res_json (JNotes results))).

(** [router.get('/notes/:id', ...)] *)
Definition get_notes_id (req : Request) : Handler :=
  let id := params_id req in
  if negb (ObjectId.isValid id) then
    next_err (new_Error_status "The `id` is not valid" 400)
  else
    Note_findById id ["id"; "title"; "content"]
      (catch_next (fun result =>
         match result with
         | Some r => res_json (JNote r)
         | None => next_route
         end)).

(** [router.post('/notes', ...)] *)
Definition post_notes (req : Request) : Handler :=
  let title := b_title (body req) in
  let content := b_content (body req) in
  if negb (truthy title) then
    next_err (new_Error_status "Missing `title` in request body" 400)
  else
    let newItem := mkNoteFields title content in
    Note_create newItem
      (catch_next (fun result =>
         Done (ResJson 201
                 (Some (originalUrl req ++ "/" ++ j_id result))
                 (JNote result)))).

(** [router.put('/notes/:id', ...)] *)
Definition put_notes_id (req : Request) : Handler :=
  let id := params_id req in
  let title := b_title (body req) in
  let content := b_content (body req) in
  if negb (truthy title) then
    next_err (new_Error_status "Missing `title` in request body" 400)
  else if negb (ObjectId.isValid id) then
    next_err (new_Error_status "The `id` is not valid" 400)
  else
    let updateItem := mkNoteFields title content in
    let options := mkOptions true in
    Note_findByIdAndUpdate id updateItem options ["id"; "title"; "content"]
      (catch_next (fun result =>
         match result with
         | Some r => res_json (JNote r)
         | None => next_route
         end)).

(** [router.delete('/notes/:id', ...)] *)
Definition delete_notes_id (req : Request) : Handler :=
  let id := params_id req in
  Note_findByIdAndRemove id
    (catch_next (fun count =>
       match count with
       | Some _ => Done (ResEnd 204)
       | None => next_route
       end)).

End NotesRouter.

Module FoldersRouter.

(** [router.get('/folders', ...)] *)
Definition get_folders (req : Request) : Handler :=
  Folder_find (SortPath "name")
    (catch_next (fun results => res_json (JFolders results))).

(** [router.get('/folders/:id', ...)] *)
Definition get_folders_id (req : Request) : Handler :=
  let id := params_id req in
  if negb (ObjectId.isValid id) then
    next_err (new_Error_status "The `id` is not valid" 400)
  else
    Folder_findById id
      (catch_next (fun result =>
         match result with
         | Some r => res_json (JFolder r)
         | None => next_route
         end)).

(** [router.post('/folders', ...)] *)
Definition post_folders (req : Request) : Handler :=
  let name := b_name (body req) in
  if negb (truthy name) then
    next_err (new_Error_status "Missing `name` in request body" 400)
  else
    let newItem := mkFolderFields name in
    Folder_create newItem
      (fun settled =>
         match settled with
         | Fulfilled result =>
             Done (ResJson 201
                     (Some (originalUrl req ++ "/" ++ fj_id result))
                     (JFolder result))
         | Rejected err =>
             let err :=
               match err_code err with
               | Some code =>
                   if code =? 11000 then
                     new_Error_status "The folder name already exists" 400
                   else err
               | None => err
               end in
             next_err err
         end).

(** [router.put('/folders/:id', ...)] *)
Definition put_folders_id (req : Request) : Handler :=
  let id := params_id req in
  let name := b_name (body req) in
  if negb (truthy name) then
    next_err (new_Error_status "Missing `name` in request body" 400)
  else if negb (ObjectId.isValid id) then
    next_err (new_Error_status "The `id` is not valid" 400)
  else
    let updateItem := mkFolderFields name in
    let options := mkOptions true in
    Folder_findByIdAndUpdate id updateItem options
      (catch_next (fun result =>
         match result with
         | Some r => res_json (JFolder r)
         | None => next_route
         end)).

(** [router.delete('/folders/:id', ...)] *)
Definition delete_folders_id (req : Request) : Handler :=
  let id := params_id req in
  Folder_findByIdAndRemove id
    (catch_next (fun _ => Done (ResEnd 204))).

End FoldersRouter.

(** The routes of the two routers. *)
Inductive Route :=
| GET_notes | GET_notes_id | POST_notes | PUT_notes_id | DELETE_notes_id
| GET_folders | GET_folders_id | POST_folders | PUT_folders_id
| DELETE_folders_id.

Definition handler (r : Route) : Request -> Handler :=
  match r with
  | GET_notes => NotesRouter.get_notes
  | GET_notes_id => NotesRouter.get_notes_id
  | POST_notes => NotesRouter.post_notes
  | PUT_notes_id => NotesRouter.put_notes_id
  | DELETE_notes_id => NotesRouter.delete_notes_id
  | GET_folders => FoldersRouter.get_folders
  | GET_folders_id => FoldersRouter.get_folders_id
  | POST_folders => FoldersRouter.post_folders
  | PUT_folders_id => FoldersRouter.put_folders_id
  | DELETE_folders_id => FoldersRouter.delete_folders_id
  end.

(** ** The storage layer *)

(** Stable insertion sort by a boolean order. *)
Fixpoint insert_by {A} (le : A -> A -> bool) (x : A) (l : list A) : list A :=
  match l with
  | [] => [x]
  | y :: r => if le x y then x :: l else y :: insert_by le x r
  end.

Fixpoint sort_by {A} (le : A -> A -> bool) (l : list A) : list A :=
  match l with
  | [] => []
  | x :: r => insert_by le x (sort_by le r)
  end.

Definition selected (field : string) (select : list string) : bool :=
  existsb (String.eqb field) select.

(** The document as [.select(fields)] leaves it; [id] is always there. *)
Definition select_note (select : list string) (d : Note) : NoteJson :=
  {| j_id := ObjectId.toHexString (note_id d);
     j_title :=
       if selected "title" select then Some (note_title d) else None;
     j_content :=
       if selected "content" select then note_content d else None;
     j_created :=
       if selected "created" select then Some (note_created d) else None;
     j_folderId :=
       if selected "folderId" select
       then option_map ObjectId.toHexString (note_folderId d) else None;
     j_tags :=
       if selected "tags" select
       then Some (map ObjectId.toHexString (note_tags d)) else None |}.

(** The whole document, when nothing is selected. *)
Definition note_json (d : Note) : NoteJson :=
  select_note ["title"; "content"; "created"; "folderId"; "tags"] d.

Definition folder_json (d : Folder) : FolderJson :=
  {| fj_id := ObjectId.toHexString (folder_id d); fj_name := folder_name d |}.

Definition CastError : Error :=
  mkError "Cast to ObjectId failed" None None.

Definition ValidationError : Error :=
  mkError "Validation failed" None None.

(** The rejection of a write that breaks a unique index. *)
Definition DuplicateKey : Error :=
  mkError "E11000 duplicate key error" None (Some 11000).

Definition set_notes (s : Store) (l : list Note) : Store :=
  {| notes := l; folders := folders s;
     next_id := next_id s; clock := clock s |}.

Definition set_folders (s : Store) (l : list Folder) : Store :=
  {| notes := notes s; folders := l;
     next_id := next_id s; clock := clock s |}.

Section Storage.

(** Relevance of a note (title, content) for a search term, as the text
    index ranks it; 0 when the note does not match. *)
Variable textScore : string -> string -> JsString -> N.

Definition score (term : string) (d : Note) : N :=
  textScore term (note_title d) (note_content d).

Definition matches (f : Filter) (d : Note) : bool :=
  match f_text f with
  | Some term => 0 <? score term d
  | None => true
  end.

Definition by_score_desc (term : string) (a b : Note) : bool :=
  score term b <=? score term a.

Definition by_created (a b : Note) : bool :=
  note_created a <=? note_created b.

(** Modelled from the spec: the order [.sort] gives to notes.  A path
    sorts ascending ([created] is the only path the routes use); the
    [textScore] document sorts by descending relevance of the filter's
    term. *)
Definition sort_notes (f : Filter) (so : SortArg) (l : list Note)
  : list Note :=
  match so with
  | SortPath path =>
      if String.eqb path "created" then sort_by by_created l else l
  | SortDoc p =>
      match p_score p, f_text f with
      | true, Some term => sort_by (by_score_desc term) l
      | _, _ => l
      end
  end.

(** Modelled from the spec: [Note.find(filter, projection).select(..)
    .sort(..)].  The score the projection asks for serves the ordering; it
    is not a field of the schema and is not serialised. *)
Definition note_find (f : Filter) (p : Projection) (select : list string)
    (so : SortArg) (s : Store) : Settled (list NoteJson) :=
  Fulfilled
    (map (select_note select) (sort_notes f so (filter (matches f) (notes s)))).

Definition has_note_id (n : N) (d : Note) : bool := note_id d =? n.
Definition has_folder_id (n : N) (d : Folder) : bool := folder_id d =? n.

(** Modelled from the spec: [Note.findById(id).select(..)]. *)
Definition note_findById (id : string) (select : list string) (s : Store)
  : Settled (option NoteJson) :=
  match ObjectId.cast id with
  | None => Rejected CastError
  | Some n =>
      Fulfilled (option_map (select_note select)
                   (find (has_note_id n) (notes s)))
  end.

(** Modelled from the spec: [Note.create(item)]: the title is required;
    the record gets a fresh identifier and its creation time. *)
Definition note_create (item : NoteFields) (s : Store)
  : Settled NoteJson * Store :=
  match nf_title item with
  | Some title =>
      if String.eqb title "" then (Rejected ValidationError, s)
      else
        let d := {| note_id := next_id s;
                    note_title := title;
                    note_content := nf_content item;
                    note_folderId := None;
                    note_tags := [];
                    note_created := clock s |} in
        (Fulfilled (note_json d),
         {| notes := notes s ++ [d]; folders := folders s;
            next_id := next_id s + 1; clock := clock s + 1 |})
  | None => (Rejected ValidationError, s)
  end.

(** The fields of the update document replace those of the note. *)
Definition update_note (item : NoteFields) (d : Note) : Note :=
  {| note_id := note_id d;
     note_title :=
       match nf_title item with Some t => t | None => note_title d end;
     note_content := nf_content item;
     note_folderId := note_folderId d;
     note_tags := note_tags d;
     note_created := note_created d |}.

(** Modelled from the spec: [Note.findByIdAndUpdate(id, item, options)
    .select(..)]. *)
Definition note_findByIdAndUpdate (id : string) (item : NoteFields)
    (options : UpdateOptions) (select : list string) (s : Store)
  : Settled (option NoteJson) * Store :=
  match ObjectId.cast id with
  | None => (Rejected CastError, s)
  | Some n =>
      match find (has_note_id n) (notes s) with
      | None => (Fulfilled None, s)
      | Some d =>
          let d' := update_note item d in
          (Fulfilled
             (Some (select_note select (if opt_new options then d' else d))),
           set_notes s
             (map (fun x => if has_note_id n x then d' else x) (notes s)))
      end
  end.

(** Modelled from the spec: [Note.findByIdAndRemove(id)]. *)
Definition note_findByIdAndRemove (id : string) (s : Store)
  : Settled (option NoteJson) * Store :=
  match ObjectId.cast id with
  | None => (Rejected CastError, s)
  | Some n =>
      (Fulfilled (option_map note_json (find (has_note_id n) (notes s))),
       set_notes s (filter (fun x => negb (has_note_id n x)) (notes s)))
  end.

Definition by_name (a b : Folder) : bool :=
  String.leb (folder_name a) (folder_name b).

(** Modelled from the spec: [Folder.find().sort(..)]. *)
Definition folder_find (so : SortArg) (s : Store)
  : Settled (list FolderJson) :=
  Fulfilled
    (map folder_json
       match so with
       | SortPath path =>
           if String.eqb path "name" then sort_by by_name (folders s)
           else folders s
       | SortDoc _ => folders s
       end).

(** Modelled from the spec: [Folder.findById(id)]. *)
Definition folder_findById (id : string) (s : Store)
  : Settled (option FolderJson) :=
  match ObjectId.cast id with
  | None => Rejected CastError
  | Some n =>
      Fulfilled (option_map folder_json (find (has_folder_id n) (folders s)))
  end.

Definition has_name (name : string) (d : Folder) : bool :=
  String.eqb (folder_name d) name.

(** Modelled from the spec: [Folder.create(item)]: the name is required,
    and unique among the folders. *)
Definition folder_create (item : FolderFields) (s : Store)
  : Settled FolderJson * Store :=
  match ff_name item with
  | Some name =>
      if String.eqb name "" then (Rejected ValidationError, s)
      else if existsb (has_name name) (folders s)
      then (Rejected DuplicateKey, s)
      else
        let d := {| folder_id := next_id s; folder_name := name |} in
        (Fulfilled (folder_json d),
         {| notes := notes s; folders := folders s ++ [d];
            next_id := next_id s + 1; clock := clock s |})
  | None => (Rejected ValidationError, s)
  end.

Definition update_folder (item : FolderFields) (d : Folder) : Folder :=
  {| folder_id := folder_id d;
     folder_name :=
       match ff_name item with Some n => n | None => folder_name d end |}.

(** Modelled from the spec: [Folder.findByIdAndUpdate(id, item, options)];
    the name stays unique among the folders. *)
Definition folder_findByIdAndUpdate (id : string) (item : FolderFields)
    (options : UpdateOptions) (s : Store)
  : Settled (option FolderJson) * Store :=
  match ObjectId.cast id with
  | None => (Rejected CastError, s)
  | Some n =>
      match find (has_folder_id n) (folders s) with
      | None => (Fulfilled None, s)
      | Some d =>
          let d' := update_folder item d in
          if existsb (has_name (folder_name d'))
               (filter (fun x => negb (has_folder_id n x)) (folders s))
          then (Rejected DuplicateKey, s)
          else
            (Fulfilled
               (Some (folder_json (if opt_new options then d' else d))),
             set_folders s
               (map (fun x => if has_folder_id n x then d' else x)
                  (folders s)))
      end
  end.

(** Modelled from the spec: [Folder.findByIdAndRemove(id)]. *)
Definition folder_findByIdAndRemove (id : string) (s : Store)
  : Settled (option FolderJson) * Store :=
  match ObjectId.cast id with
  | None => (Rejected CastError, s)
  | Some n =>
      (Fulfilled (option_map folder_json
                    (find (has_folder_id n) (folders s))),
       set_folders s (filter (fun x => negb (has_folder_id n x)) (folders s)))
  end.

End Storage.

(** ** Running a handler *)

Inductive Collection := NotesCollection | FoldersCollection.

Inductive StorageOp :=
| OpFind | OpFindById | OpCreate | OpFindByIdAndUpdate | OpFindByIdAndRemove.

(** One call to the storage layer, with the identifier it was given. *)
Record Call := mkCall {
  call_collection : Collection;
  call_op : StorageOp;
  call_id : option string
}.

Record Run := mkRun {
  outcome : Outcome;
  store : Store;
  calls : list Call
}.

Definition logged (c : Call) (r : Run) : Run :=
  {| outcome := outcome r; store := store r; calls := c :: calls r |}.

Record Response := mkResponse {
  status : N;
  location : option string;
  res_body : Body
}.

(** Modelled from the spec: the last stage of the application
    ([server.js] is not part of the sources): a request no route answered
    is NotFound (404); an error carries its own status, and "unmapped
    errors" become 500; the body of an error response is its message. *)
Definition respond (o : Outcome) : Response :=
  match o with
  | ResJson st loc b => mkResponse st loc b
  | ResEnd st => mkResponse st None NoBody
  | NextRoute => mkResponse 404 None NoBody
  | NextErr e =>
      mkResponse (match err_status e with Some st => st | None => 500 end)
        None (JMessage (err_message e))
  end.

Section Server.

Variable textScore : string -> string -> JsString -> N.

(** The handler against a store: the outcome, the store it leaves and the
    storage calls it made, in order. *)
Fixpoint run (h : Handler) (s : Store) : Run :=
  match h with
  | Done o => {| outcome := o; store := s; calls := [] |}
  | Note_find f p sel so k =>
      logged (mkCall NotesCollection OpFind None)
        (run (k (note_find textScore f p sel so s)) s)
  | Note_findById id sel k =>
      logged (mkCall NotesCollection OpFindById (Some id))
        (run (k (note_findById id sel s)) s)
  | Note_create item k =>
      let '(r, s') := note_create item s in
      logged (mkCall NotesCollection OpCreate None) (run (k r) s')
  | Note_findByIdAndUpdate id item opts sel k =>
      let '(r, s') := note_findByIdAndUpdate id item opts sel s in
      logged (mkCall NotesCollection OpFindByIdAndUpdate (Some id))
        (run (k r) s')
  | Note_findByIdAndRemove id k =>
      let '(r, s') := note_findByIdAndRemove id s in
      logged (mkCall NotesCollection OpFindByIdAndRemove (Some id))
        (run (k r) s')
  | Folder_find so k =>
      logged (mkCall FoldersCollection OpFind None)
        (run (k (folder_find so s)) s)
  | Folder_findById id k =>
      logged (mkCall FoldersCollection OpFindById (Some id))
        (run (k (folder_findById id s)) s)
  | Folder_create item k =>
      let '(r, s') := folder_create item s in
      logged (mkCall FoldersCollection OpCreate None) (run (k r) s')
  | Folder_findByIdAndUpdate id item opts k =>
      let '(r, s') := folder_findByIdAndUpdate id item opts s in
      logged (mkCall FoldersCollection OpFindByIdAndUpdate (Some id))
        (run (k r) s')
  | Folder_findByIdAndRemove id k =>
      let '(r, s') := folder_findByIdAndRemove id s in
      logged (mkCall FoldersCollection OpFindByIdAndRemove (Some id))
        (run (k r) s')
  end.

(** A request to a route, against a store. *)
Definition serve (r : Route) (req : Request) (s : Store) : Run :=
  run (handler r req) s.

Definition response (r : Route) (req : Request) (s : Store) : Response :=
  respond (outcome (serve r req s)).

End Server.

(** The identifier of the request is one the guard of the routes accepts
    ([well_formed]: 12 characters or 24 hexadecimal digits) or rejects
    ([malformed]). *)
Definition well_formed (id : string) : Prop := ObjectId.isValid id = true.
Definition malformed (id : string) : Prop := ObjectId.isValid id = false.

(** The stored record a well-formed identifier names, if any. *)
Definition stored_note (id : string) (s : Store) : option Note :=
  match ObjectId.cast id with
  | Some n => find (has_note_id n) (notes s)
  | None => None
  end.

Definition stored_folder (id : string) (s : Store) : option Folder :=
  match ObjectId.cast id with
  | Some n => find (has_folder_id n) (folders s)
  | None => None
  end.

(** Identifiers in use were handed out by the generator. *)
Definition ids_issued (s : Store) : Prop :=
  Forall (fun d => note_id d < next_id s) (notes s) /\
  Forall (fun d => folder_id d < next_id s) (folders s).

(** ... and the generator has not run out of 96-bit values. *)
Definition ids_generated (s : Store) : Prop :=
  ids_issued s /\ next_id s < 16 ^ 24.

(** ** Responses and requests the properties speak of *)

(** The fields [GET /api/notes] selects. *)
Definition list_view : Note -> NoteJson :=
  select_note ["title"; "content"; "created"].

(** The fields [GET] and [PUT /api/notes/:id] select. *)
Definition item_view : Note -> NoteJson :=
  select_note ["id"; "title"; "content"].

Definition invalid_id : Response :=
  mkResponse 400 None (JMessage "The `id` is not valid").

Definition missing_field (field : string) : Response :=
  mkResponse 400 None
    (JMessage ("Missing `" ++ field ++ "` in request body")).

(** The request without its [searchTerm] parameter. *)
Definition without_searchTerm (req : Request) : Request :=
  mkRequest (originalUrl req) (params_id req) None (body req).

(** The request with another identifier in its path. *)
Definition with_id (id : string) (req : Request) : Request :=
  mkRequest (originalUrl req) id (query_searchTerm req) (body req).

(** The request with other [folderId] and [tags] in its body. *)
Definition with_folder_and_tags (folderId : JsString) (tags : list string)
    (req : Request) : Request :=
  mkRequest (originalUrl req) (params_id req) (query_searchTerm req)
    (mkBody (b_title (body req)) (b_content (body req)) folderId tags
       (b_name (body req))).

(** What C4 asks of [PUT /api/notes/:id]: the stored note has the title,
    content, folder reference and tags of the request body. *)
Definition replaces_every_field (req : Request) (s' : Store) : Prop :=
  exists d,
    stored_note (params_id req) s' = Some d
    /\ Some (note_title d) = b_title (body req)
    /\ note_content d = b_content (body req)
    /\ option_map ObjectId.toHexString (note_folderId d)
       = b_folderId (body req)
    /\ map ObjectId.toHexString (note_tags d) = b_tags (body req).

(** What the handler goes on with when its storage call is rejected with
    [e] (its [.catch]); a handler that is done stays as it is. *)
Definition on_rejection (h : Handler) (e : Error) : Handler :=
  match h with
  | Done _ => h
  | Note_find _ _ _ _ k => k (Rejected e)
  | Note_findById _ _ k => k (Rejected e)
  | Note_create _ k => k (Rejected e)
  | Note_findByIdAndUpdate _ _ _ _ k => k (Rejected e)
  | Note_findByIdAndRemove _ k => k (Rejected e)
  | Folder_find _ k => k (Rejected e)
  | Folder_findById _ k => k (Rejected e)
  | Folder_create _ k => k (Rejected e)
  | Folder_findByIdAndUpdate _ _ _ k => k (Rejected e)
  | Folder_findByIdAndRemove _ k => k (Rejected e)
  end.

(** ** A small store and scorer to evaluate the routes on *)

Module Example.

(** Number of occurrences of [term] as a prefix of a suffix of [s]. *)
Fixpoint occurrences (term s : string) : N :=
  match s with
  | EmptyString => 0
  | String _ r =>
      (if String.prefix term s then 1 else 0) + occurrences term r
  end.

Definition textScore (term title : string) (content : JsString) : N :=
  occurrences term title +
  match content with Some c => occurrences term c | None => 0 end.

Definition cats : Note :=
  mkNote 1 "5 life lessons learned from cats"
    (Some "Lorem ipsum dolor sit amet") (Some 7) [9] 30.

Definition gaga : Note :=
  mkNote 2 "What the government doesn't want you to know about lady gaga"
    (Some "gaga gaga") None [] 10.

Definition dogs : Note :=
  mkNote 3 "The most boring article about dogs" None None [] 20.

Definition work : Folder := mkFolder 7 "Work".
Definition personal : Folder := mkFolder 8 "Personal".

Definition db : Store := mkStore [cats; gaga; dogs] [work; personal] 10 40.

Definition empty_db : Store := mkStore [] [] 0 0.

Definition no_body : ReqBody := mkBody None None None [] None.

Definition request (id : string) (search : JsString) (b : ReqBody)
  : Request :=
  mkRequest "/api/notes" id search b.

Definition id_of (n : N) : string := ObjectId.toHexString n.

Definition bad_id : string := "99-99-99".

(** Twelve characters that are not hexadecimal digits throughout. *)
Definition twelve_chars : string := "zzzzzzzzzzzz".
Definition unknown_id : string := "AAAAAAAAAAAAAAAAAAAAAAAA".

Definition dogs_update : ReqBody :=
  mkBody (Some "What about dogs?!") (Some "woof woof")
    (Some "111111111111111111111100") ["222222222222222222222299"] None.

Definition cats_article : ReqBody :=
  mkBody (Some "The best article about cats ever!") (Some "Lorem ipsum")
    (Some "111111111111111111111100") ["222222222222222222222299"] None.

Definition rename_to (name : string) : ReqBody :=
  mkBody None None None [] (Some name).

Definition folders_request (id : string) (b : ReqBody) : Request :=
  mkRequest "/api/folders" id None b.

End Example.

(** * Properties *)

(** ** Identifiers: the string of a generated identifier is well formed and
    casts back to the identifier *)

Module ObjectIdFacts.
Import ObjectId.

Lemma hex_value_digit (d : N) : d < 16 -> hex_value (hex_digit d) = Some d.
Proof.
  intros H.
  assert (C : d = 0 \/ d = 1 \/ d = 2 \/ d = 3 \/ d = 4 \/ d = 5 \/ d = 6
              \/ d = 7 \/ d = 8 \/ d = 9 \/ d = 10 \/ d = 11 \/ d = 12
              \/ d = 13 \/ d = 14 \/ d = 15) by lia.
  repeat (destruct C as [-> | C]; [reflexivity |]).
  subst d; reflexivity.
Qed.

Lemma length_append (a b : string) :
  String.length (a ++ b) = (String.length a + String.length b)%nat.
Proof. induction a as [| c a IH]; simpl; [reflexivity | now rewrite IH]. Qed.

Lemma all_hex_append (a b : string) :
  all_hex (a ++ b) = all_hex a && all_hex b.
Proof.
  induction a as [| c a IH]; simpl; [reflexivity |].
  destruct (hex_value c); [exact IH | reflexivity].
Qed.

Lemma length_digits (k : nat) (n : N) : String.length (digits k n) = k.
Proof.
  revert n; induction k as [| k IH]; intros n; simpl; [reflexivity |].
  rewrite length_append, IH; simpl; lia.
Qed.

Lemma all_hex_digits (k : nat) (n : N) : all_hex (digits k n) = true.
Proof.
  revert n; induction k as [| k IH]; intros n; simpl; [reflexivity |].
  rewrite all_hex_append, IH; simpl.
  rewrite hex_value_digit; [reflexivity |].
  apply N.mod_upper_bound; discriminate.
Qed.

Lemma parse_from_append (a b : string) (acc : N) :
  parse_from acc (a ++ b) =
  match parse_from acc a with
  | Some v => parse_from v b
  | None => None
  end.
Proof.
  revert acc; induction a as [| c a IH]; intros acc; simpl; [reflexivity |].
  destruct (hex_value c); [apply IH | reflexivity].
Qed.

Lemma parse_from_digits (k : nat) (n acc : N) :
  parse_from acc (digits k n) =
  Some (acc * 16 ^ N.of_nat k + n mod 16 ^ N.of_nat k).
Proof.
  revert n acc; induction k as [| k IH]; intros n acc.
  - simpl. rewrite N.mod_1_r. f_equal; lia.
  - cbn [digits]. rewrite parse_from_append, IH.
    cbn [parse_from].
    rewrite hex_value_digit by (apply N.mod_upper_bound; discriminate).
    f_equal.
    rewrite Nat2N.inj_succ, N.pow_succ_r', N.Div0.mod_mul_r. lia.
Qed.

Lemma hex24_toHexString (n : N) : hex24 (toHexString n) = true.
Proof.
  unfold hex24, toHexString.
  now rewrite length_digits, all_hex_digits.
Qed.

(** The string of an identifier is one the routes accept. *)
Lemma isValid_toHexString (n : N) : isValid (toHexString n) = true.
Proof.
  unfold isValid. rewrite hex24_toHexString. apply orb_true_r.
Qed.

(** Round trip: casting the string of a 96-bit identifier gives it back. *)
Lemma cast_toHexString (n : N) :
  n < 16 ^ 24 -> cast (toHexString n) = Some n.
Proof.
  intros H. unfold cast. rewrite hex24_toHexString.
  unfold toHexString. rewrite parse_from_digits.
  change (N.of_nat 24) with 24.
  rewrite N.mod_small by exact H. reflexivity.
Qed.

Lemma parse_from_all_hex (s : string) (acc : N) :
  all_hex s = true -> exists n, parse_from acc s = Some n.
Proof.
  revert acc; induction s as [| c s IH]; intros acc H; simpl in *.
  - now exists acc.
  - destruct (hex_value c); [now apply IH | discriminate].
Qed.

(** The cast succeeds exactly on the identifiers the routes accept. *)
Lemma cast_well_formed (id : string) :
  isValid id = true -> exists n, cast id = Some n.
Proof.
  unfold isValid, cast. intros H.
  destruct (hex24 id) eqn:Hh.
  - apply parse_from_all_hex.
    unfold hex24 in Hh. now apply andb_true_iff in Hh.
  - rewrite orb_false_r in H. rewrite H. now eexists.
Qed.

Lemma cast_malformed (id : string) : isValid id = false -> cast id = None.
Proof.
  unfold isValid, cast. intros H.
  apply orb_false_iff in H. destruct H as [H12 Hh].
  now rewrite Hh, H12.
Qed.

(** The identifiers the routes turn away: neither 12 characters nor 24
    hexadecimal digits. *)
Lemma isValid_false_iff (id : string) :
  isValid id = false <-> String.length id <> 12%nat /\ hex24 id = false.
Proof.
  unfold isValid. rewrite orb_false_iff, Nat.eqb_neq. reflexivity.
Qed.

End ObjectIdFacts.

(** ** Sorting: [sort_by] permutes its input and orders it *)

Section SortFacts.

Context {A : Type}.
Variable le : A -> A -> bool.

(** The order is total. *)
Hypothesis le_total : forall a b, le a b = false -> le b a = true.

Lemma insert_by_perm (x : A) (l : list A) :
  Permutation (insert_by le x l) (x :: l).
Proof.
  induction l as [| y r IH]; simpl.
  - apply Permutation_refl.
  - destruct (le x y).
    + apply Permutation_refl.
    + eapply perm_trans; [apply perm_skip, IH | apply perm_swap].
Qed.

Lemma sort_by_perm (l : list A) : Permutation (sort_by le l) l.
Proof.
  induction l as [| x r IH]; simpl.
  - apply perm_nil.
  - eapply perm_trans; [apply insert_by_perm | apply perm_skip, IH].
Qed.

Lemma insert_by_HdRel (a x : A) (l : list A) :
  le a x = true ->
  HdRel (fun u v => le u v = true) a l ->
  HdRel (fun u v => le u v = true) a (insert_by le x l).
Proof.
  intros Hax H. destruct l as [| y r]; simpl.
  - now constructor.
  - destruct (le x y); constructor; [exact Hax |].
    now inversion H.
Qed.

Lemma insert_by_sorted (x : A) (l : list A) :
  Sorted (fun u v => le u v = true) l ->
  Sorted (fun u v => le u v = true) (insert_by le x l).
Proof.
  induction l as [| y r IH]; intros H; simpl.
  - repeat constructor.
  - destruct (le x y) eqn:E.
    + constructor; [exact H | now constructor].
    + inversion H as [| ? ? Hr Hhd]; subst.
      constructor; [now apply IH |].
      apply insert_by_HdRel; [now apply le_total | exact Hhd].
Qed.

Lemma sort_by_sorted (l : list A) :
  Sorted (fun u v => le u v = true) (sort_by le l).
Proof.
  induction l as [| x r IH]; simpl.
  - constructor.
  - now apply insert_by_sorted.
Qed.

End SortFacts.

Lemma Sorted_impl {A} (R R' : A -> A -> Prop) (l : list A) :
  (forall a b, R a b -> R' a b) -> Sorted R l -> Sorted R' l.
Proof.
  intros HR H. induction H as [| a l Hs IH Hhd]; constructor.
  - exact IH.
  - destruct Hhd; constructor. now apply HR.
Qed.

(** ** The routes *)

Lemma truthy_nonempty (t : string) : t <> "" -> truthy (Some t) = true.
Proof.
  intros H. unfold truthy. apply negb_true_iff. now apply String.eqb_neq.
Qed.

Lemma truthy_inv (x : JsString) :
  truthy x = true -> exists t, x = Some t /\ String.eqb t "" = false.
Proof.
  destruct x as [t |]; simpl; intros H; [| discriminate].
  exists t. split; [reflexivity | now apply negb_true_iff].
Qed.

Lemma Permutation_nil_eq {A} (l : list A) : Permutation l [] -> l = [].
Proof. intros H. apply Permutation_sym in H. now apply Permutation_nil. Qed.

Lemma filter_none {A} (f : A -> bool) (l : list A) :
  (forall x, In x l -> f x = false) -> filter f l = [].
Proof.
  induction l as [| x r IH]; intros H; simpl; [reflexivity |].
  rewrite (H x (or_introl eq_refl)). apply IH.
  intros y Hy. apply H. now right.
Qed.

Section Routes.

Variable textScore : string -> string -> JsString -> N.

Local Abbreviation response := (response textScore).
Local Abbreviation serve := (serve textScore).
Local Abbreviation score := (score textScore).

Lemma by_created_total (a b : Note) :
  by_created a b = false -> by_created b a = true.
Proof.
  unfold by_created. intros H.
  apply N.leb_gt in H. apply N.leb_le. lia.
Qed.

Lemma by_score_desc_total (term : string) (a b : Note) :
  by_score_desc textScore term a b = false ->
  by_score_desc textScore term b a = true.
Proof.
  unfold by_score_desc. intros H.
  apply N.leb_gt in H. apply N.leb_le. lia.
Qed.

(** Without a search term the listing is every stored note, by creation
    time. *)
Lemma get_notes_unfiltered (req : Request) (s : Store) :
  truthy (query_searchTerm req) = false ->
  exists l,
    response GET_notes req s = mkResponse 200 None (JNotes (map list_view l))
    /\ Permutation l (notes s)
    /\ Sorted (fun a b => note_created a <= note_created b) l.
Proof.
  intros H.
  exists (sort_by by_created (notes s)). split; [| split].
  - unfold response, serve, handler, NotesRouter.get_notes.
    rewrite H. cbn.
    replace (filter (matches textScore (mkFilter None)) (notes s))
      with (notes s); [reflexivity |].
    induction (notes s) as [| d r IH]; simpl; [reflexivity | now f_equal].
  - apply sort_by_perm.
  - eapply Sorted_impl; [| apply sort_by_sorted, by_created_total].
    intros a b Hab. now apply N.leb_le.
Qed.

(** C1: [GET /api/notes] with a non-empty [searchTerm] asks the storage
    layer for the notes whose title or content match the term, ranked by
    relevance, and answers 200 with the matching notes in order of
    descending score; without [searchTerm] it answers 200 with every
    stored note in order of creation time; when nothing matches the answer
    is still 200, with an empty array. *)
Theorem get_notes_searches_or_lists (req : Request) (s : Store) :
  (forall term, query_searchTerm req = Some term -> term <> "" ->
     (exists k,
        NotesRouter.get_notes req =
        Note_find (mkFilter (Some term)) (mkProjection true)
          ["title"; "content"; "created"] (SortDoc (mkProjection true)) k)
     /\
     exists l,
       response GET_notes req s =
       mkResponse 200 None (JNotes (map list_view l))
       /\ Permutation l (filter (fun d => 0 <? score term d) (notes s))
       /\ Sorted (fun a b => score term b <= score term a) l
       /\ ((forall d, In d (notes s) -> score term d = 0) -> l = []))
  /\
  (query_searchTerm req = None ->
     exists l,
       response GET_notes req s =
       mkResponse 200 None (JNotes (map list_view l))
       /\ Permutation l (notes s)
       /\ Sorted (fun a b => note_created a <= note_created b) l
       /\ (notes s = [] -> l = [])).
Proof.
  split.
  - intros term Hq Hne.
    assert (Ht : truthy (query_searchTerm req) = true)
      by (rewrite Hq; now apply truthy_nonempty).
    split.
    + eexists. unfold NotesRouter.get_notes. rewrite Ht, Hq. reflexivity.
    + exists (sort_by (by_score_desc textScore term)
                (filter (fun d => 0 <? score term d) (notes s))).
      repeat split.
      * unfold response, serve, handler, NotesRouter.get_notes.
        rewrite Ht, Hq. reflexivity.
      * apply sort_by_perm.
      * eapply Sorted_impl;
          [| apply sort_by_sorted, by_score_desc_total].
        intros a b Hab. now apply N.leb_le.
      * intros Hnone. rewrite filter_none; [reflexivity |].
        intros d Hd. rewrite (Hnone d Hd). reflexivity.
  - intros Hq.
    destruct (get_notes_unfiltered req s) as (l & Hr & Hp & Hs).
    { now rewrite Hq. }
    exists l. repeat split; try assumption.
    intros Hnil. rewrite Hnil in Hp. now apply Permutation_nil_eq.
Qed.

(** C9: an empty [searchTerm] is handled as a missing one: the handler
    issues the same storage call, with no text filter and no score
    projection, and the answer is every stored note in order of creation
    time. *)
Theorem get_notes_empty_searchTerm (req : Request) (s : Store) :
  query_searchTerm req = Some "" ->
  NotesRouter.get_notes req = NotesRouter.get_notes (without_searchTerm req)
  /\ (exists k,
        NotesRouter.get_notes req =
        Note_find (mkFilter None) (mkProjection false)
          ["title"; "content"; "created"] (SortPath "created") k)
  /\ response GET_notes req s = response GET_notes (without_searchTerm req) s
  /\ exists l,
       response GET_notes req s =
       mkResponse 200 None (JNotes (map list_view l))
       /\ Permutation l (notes s)
       /\ Sorted (fun a b => note_created a <= note_created b) l.
Proof.
  intros Hq.
  assert (E : NotesRouter.get_notes req =
              NotesRouter.get_notes (without_searchTerm req)).
  { unfold NotesRouter.get_notes. rewrite Hq. reflexivity. }
  split; [exact E |]. split; [| split].
  - eexists. unfold NotesRouter.get_notes. rewrite Hq. reflexivity.
  - unfold response, serve, handler. now rewrite E.
  - apply get_notes_unfiltered. now rewrite Hq.
Qed.


(** *** Malformed identifiers *)

(** C2 (as the code has it): with an identifier that the guard
    [ObjectId.isValid] rejects, one that is neither 12 characters long nor
    24 hexadecimal digits, [GET] and [PUT] on [/api/notes/:id] and
    [/api/folders/:id] ([PUT] with its required field in the body) answer
    400 with the message "The `id` is not valid". *)
Theorem malformed_id_is_400 (req : Request) (s : Store) :
  malformed (params_id req) ->
  response GET_notes_id req s = invalid_id
  /\ (truthy (b_title (body req)) = true ->
      response PUT_notes_id req s = invalid_id)
  /\ response GET_folders_id req s = invalid_id
  /\ (truthy (b_name (body req)) = true ->
      response PUT_folders_id req s = invalid_id).
Proof.
  unfold malformed. intros H. repeat split.
  - unfold response, serve, handler, NotesRouter.get_notes_id.
    rewrite H. reflexivity.
  - intros Ht.
    unfold response, serve, handler, NotesRouter.put_notes_id.
    rewrite Ht, H. reflexivity.
  - unfold response, serve, handler, FoldersRouter.get_folders_id.
    rewrite H. reflexivity.
  - intros Hn.
    unfold response, serve, handler, FoldersRouter.put_folders_id.
    rewrite Hn, H. reflexivity.
Qed.

(** X2: [GET] and [PUT] turn an identifier that their guard rejects
    (neither 12 characters nor 24 hexadecimal digits) away before any
    storage call: nothing is logged and the store is as it was. *)
Lemma malformed_id_get_put_no_storage (r : Route) (req : Request) (s : Store) :
  malformed (params_id req) ->
  In r [GET_notes_id; PUT_notes_id; GET_folders_id; PUT_folders_id] ->
  calls (serve r req s) = [] /\ store (serve r req s) = s.
Proof.
  unfold malformed. intros H Hr.
  repeat (destruct Hr as [<- | Hr]); try contradiction;
    unfold serve, handler, NotesRouter.get_notes_id,
      NotesRouter.put_notes_id, FoldersRouter.get_folders_id,
      FoldersRouter.put_folders_id;
    rewrite ?H; cbn [negb];
    try destruct (truthy (b_title (body req)));
    try destruct (truthy (b_name (body req)));
    split; reflexivity.
Qed.

(** [DELETE] hands whatever identifier it finds in the path to the storage
    layer. *)
Lemma delete_calls_storage (req : Request) (s : Store) :
  calls (serve DELETE_notes_id req s) =
    [mkCall NotesCollection OpFindByIdAndRemove (Some (params_id req))]
  /\ calls (serve DELETE_folders_id req s) =
    [mkCall FoldersCollection OpFindByIdAndRemove (Some (params_id req))].
Proof.
  split.
  - unfold serve, handler, NotesRouter.delete_notes_id. cbn [run].
    destruct (note_findByIdAndRemove (params_id req) s) as [r s'].
    destruct r as [[v |] | e]; reflexivity.
  - unfold serve, handler, FoldersRouter.delete_folders_id. cbn [run].
    destruct (folder_findByIdAndRemove (params_id req) s) as [r s'].
    destruct r; reflexivity.
Qed.

(** *** Missing required fields *)

(** C6: without a non-empty [title], [POST] and [PUT] on notes answer 400
    with "Missing `title` in request body"; without a non-empty [name],
    [POST] and [PUT] on folders answer 400 with "Missing `name` in request
    body"; in both cases no storage call is made and the store is
    unchanged. *)
Theorem missing_field_is_400 (req : Request) (s : Store) :
  (truthy (b_title (body req)) = false ->
   forall r, r = POST_notes \/ r = PUT_notes_id ->
     response r req s = missing_field "title"
     /\ store (serve r req s) = s
     /\ calls (serve r req s) = [])
  /\
  (truthy (b_name (body req)) = false ->
   forall r, r = POST_folders \/ r = PUT_folders_id ->
     response r req s = missing_field "name"
     /\ store (serve r req s) = s
     /\ calls (serve r req s) = []).
Proof.
  split; intros H r [-> | ->];
    unfold response, serve, handler, NotesRouter.post_notes,
      NotesRouter.put_notes_id, FoldersRouter.post_folders,
      FoldersRouter.put_folders_id;
    rewrite H; repeat split; reflexivity.
Qed.

(** *** Identifiers that name no record *)

(** C8 (as the code has it): with a well-formed identifier that names no
    stored record, [GET], [PUT] (with its required field) and [DELETE] on
    [/api/notes/:id], and [GET] and [PUT] on [/api/folders/:id], answer 404;
    [DELETE /api/folders/:id] answers 204. *)
Theorem unknown_id_is_404_but_folder_delete (req : Request) (s : Store) :
  well_formed (params_id req) ->
  (stored_note (params_id req) s = None ->
     status (response GET_notes_id req s) = 404
     /\ (truthy (b_title (body req)) = true ->
         status (response PUT_notes_id req s) = 404)
     /\ status (response DELETE_notes_id req s) = 404)
  /\
  (stored_folder (params_id req) s = None ->
     status (response GET_folders_id req s) = 404
     /\ (truthy (b_name (body req)) = true ->
         status (response PUT_folders_id req s) = 404)
     /\ status (response DELETE_folders_id req s) = 204).
Proof.
  unfold well_formed. intros Hv.
  destruct (ObjectIdFacts.cast_well_formed _ Hv) as [n Hc].
  split; intros Hnone.
  - unfold stored_note in Hnone. rewrite Hc in Hnone.
    repeat split.
    + unfold response, serve, handler, NotesRouter.get_notes_id.
      rewrite Hv. cbn [negb run]. unfold note_findById.
      rewrite Hc, Hnone. reflexivity.
    + intros Ht.
      unfold response, serve, handler, NotesRouter.put_notes_id.
      rewrite Ht, Hv. cbn [negb run]. unfold note_findByIdAndUpdate.
      rewrite Hc, Hnone. reflexivity.
    + unfold response, serve, handler, NotesRouter.delete_notes_id.
      cbn [run]. unfold note_findByIdAndRemove.
      rewrite Hc, Hnone. reflexivity.
  - unfold stored_folder in Hnone. rewrite Hc in Hnone.
    repeat split.
    + unfold response, serve, handler, FoldersRouter.get_folders_id.
      rewrite Hv. cbn [negb run]. unfold folder_findById.
      rewrite Hc, Hnone. reflexivity.
    + intros Ht.
      unfold response, serve, handler, FoldersRouter.put_folders_id.
      rewrite Ht, Hv. cbn [negb run]. unfold folder_findByIdAndUpdate.
      rewrite Hc, Hnone. reflexivity.
    + unfold response, serve, handler, FoldersRouter.delete_folders_id.
      cbn [run]. unfold folder_findByIdAndRemove.
      rewrite Hc. reflexivity.
Qed.

(** *** Updating and creating notes *)

Lemma find_map_replace (n : N) (d d' : Note) (l : list Note) :
  find (has_note_id n) l = Some d ->
  has_note_id n d' = true ->
  find (has_note_id n)
    (map (fun x => if has_note_id n x then d' else x) l) = Some d'.
Proof.
  intros Hf Hd'. induction l as [| x r IH]; simpl in *; [discriminate |].
  destruct (has_note_id n x) eqn:E.
  - now rewrite Hd'.
  - rewrite E. now apply IH.
Qed.

Lemma find_has_note_id (n : N) (d : Note) (l : list Note) :
  find (has_note_id n) l = Some d -> note_id d = n.
Proof.
  intros H. apply find_some in H. destruct H as [_ H].
  now apply N.eqb_eq.
Qed.

Lemma find_app_generated (d : Note) (l : list Note) :
  Forall (fun x => note_id x < note_id d) l ->
  find (has_note_id (note_id d)) l = None
  /\ find (has_note_id (note_id d)) (l ++ [d]) = Some d.
Proof.
  intros H. induction H as [| x r Hx Hr IH]; simpl.
  - unfold has_note_id. now rewrite N.eqb_refl.
  - unfold has_note_id at 1 3.
    assert (E : (note_id x =? note_id d) = false) by (apply N.eqb_neq; lia).
    rewrite E. exact IH.
Qed.

(** What [PUT /api/notes/:id] does on a stored note, given a non-empty
    title and a well-formed identifier: it replaces the title and the
    content of the note by those of the request body, leaves its folder
    reference and its tags as they were, and answers 200 with the
    identifier, the title and the content. *)
Theorem put_notes_replaces_title_and_content
    (req : Request) (s : Store) (d : Note) (title : string) :
  b_title (body req) = Some title -> title <> "" ->
  well_formed (params_id req) ->
  stored_note (params_id req) s = Some d ->
  exists d',
    stored_note (params_id req) (store (serve PUT_notes_id req s)) = Some d'
    /\ note_title d' = title
    /\ note_content d' = b_content (body req)
    /\ note_folderId d' = note_folderId d
    /\ note_tags d' = note_tags d
    /\ note_id d' = note_id d
    /\ note_created d' = note_created d
    /\ response PUT_notes_id req s = mkResponse 200 None (JNote (item_view d')).
Proof.
  unfold well_formed, stored_note. intros Ht Hne Hv Hd.
  destruct (ObjectId.cast (params_id req)) as [n |] eqn:Hc; [| discriminate].
  pose proof (truthy_nonempty title Hne) as Htr.
  set (d' := update_note (mkNoteFields (Some title) (b_content (body req))) d).
  assert (Hd' : has_note_id n d' = true).
  { unfold has_note_id, d'; simpl. apply N.eqb_eq.
    now apply find_has_note_id with (l := notes s). }
  assert (Hrun : serve PUT_notes_id req s =
                 mkRun (ResJson 200 None (JNote (item_view d')))
                   (set_notes s
                      (map (fun x => if has_note_id n x then d' else x)
                         (notes s)))
                   [mkCall NotesCollection OpFindByIdAndUpdate
                      (Some (params_id req))]).
  { unfold serve, handler, NotesRouter.put_notes_id.
    rewrite Ht, Htr, Hv. cbn [negb run]. unfold note_findByIdAndUpdate.
    rewrite Hc, Hd. reflexivity. }
  exists d'. unfold response. rewrite Hrun.
  cbn [store outcome respond notes set_notes].
  rewrite (find_map_replace n d d' (notes s) Hd Hd').
  repeat split; reflexivity.
Qed.

(** C5: [POST /api/notes] with a non-empty title answers 201, with a
    [Location] that ends in the identifier of the created note and a body
    that carries the submitted title and content and that identifier, which
    is newly generated; [GET /api/notes/:id] with it then answers the same
    title and content. *)
Theorem post_notes_then_get (req : Request) (s : Store) (title : string) :
  b_title (body req) = Some title -> title <> "" ->
  ids_generated s ->
  exists j,
    response POST_notes req s =
      mkResponse 201 (Some (originalUrl req ++ "/" ++ j_id j)) (JNote j)
    /\ j_title j = Some title
    /\ j_content j = b_content (body req)
    /\ j_id j = ObjectId.toHexString (next_id s)
    /\ stored_note (j_id j) s = None
    /\ forall req', params_id req' = j_id j ->
         exists j',
           response GET_notes_id req' (store (serve POST_notes req s)) =
             mkResponse 200 None (JNote j')
           /\ j_id j' = j_id j
           /\ j_title j' = Some title
           /\ j_content j' = b_content (body req).
Proof.
  intros Ht Hne ((Hnotes & _) & Hbound).
  pose proof (truthy_nonempty title Hne) as Htr.
  assert (Hemp : String.eqb title "" = false) by now apply String.eqb_neq.
  set (d := mkNote (next_id s) title (b_content (body req)) None []
              (clock s)).
  assert (Hrun : serve POST_notes req s =
                 mkRun (ResJson 201
                          (Some (originalUrl req ++ "/" ++
                                 ObjectId.toHexString (next_id s)))
                          (JNote (note_json d)))
                   (mkStore (notes s ++ [d]) (folders s)
                      (next_id s + 1) (clock s + 1))
                   [mkCall NotesCollection OpCreate None]).
  { unfold serve, handler, NotesRouter.post_notes.
    rewrite Ht, Htr. cbn [negb run]. unfold note_create.
    cbn [nf_title nf_content]. rewrite Hemp. reflexivity. }
  destruct (find_app_generated d (notes s) Hnotes) as [Hfresh Hfound].
  pose proof (ObjectIdFacts.cast_toHexString (next_id s) Hbound) as Hc.
  exists (note_json d). unfold response. rewrite Hrun.
  cbn [store outcome respond].
  repeat split.
  - unfold stored_note. cbn [note_json select_note j_id note_id d].
    rewrite Hc. exact Hfresh.
  - intros req' Hid. cbn [note_json select_note j_id note_id d] in Hid.
    exists (item_view d).
    unfold serve, handler, NotesRouter.get_notes_id.
    rewrite Hid, ObjectIdFacts.isValid_toHexString.
    cbn [negb run]. unfold note_findById. rewrite Hc.
    cbn [notes]. cbn [note_id d] in Hfound.
    rewrite Hfound. repeat split.
Qed.

(** C10: [POST /api/notes] with a non-empty title builds the record from
    the title and the content of the request body alone: whatever
    [folderId] and [tags] the body carries, the outcome, the store and the
    storage calls are the same, and the created note has no folder and no
    tags. *)
Theorem post_notes_ignores_folder_and_tags
    (req : Request) (s : Store) (folderId : JsString) (tags : list string) :
  truthy (b_title (body req)) = true ->
  serve POST_notes (with_folder_and_tags folderId tags req) s =
    serve POST_notes req s
  /\ exists d,
       notes (store (serve POST_notes req s)) = (notes s ++ [d])%list
       /\ Some (note_title d) = b_title (body req)
       /\ note_content d = b_content (body req)
       /\ note_folderId d = None
       /\ note_tags d = [].
Proof.
  intros Htr. split; [reflexivity |].
  destruct (truthy_inv _ Htr) as (title & Ht & Hemp).
  exists (mkNote (next_id s) title (b_content (body req)) None [] (clock s)).
  unfold serve, handler, NotesRouter.post_notes.
  rewrite Htr. cbn [negb run]. unfold note_create.
  cbn [nf_title nf_content]. rewrite Ht, Hemp.
  repeat split.
Qed.

End Routes.

(** *** The identifiers in use stay below the generator *)

Section Invariant.

Variable textScore : string -> string -> JsString -> N.

Lemma Forall_replace {A} (P : A -> Prop) (f : A -> bool) (d' : A)
    (l : list A) :
  (Exists (fun x => f x = true) l -> P d') ->
  Forall P l -> Forall P (map (fun x => if f x then d' else x) l).
Proof.
  intros Hd' H. induction H as [| x r Hx Hr IH]; simpl; constructor.
  - destruct (f x) eqn:E; [| exact Hx].
    apply Hd'. now constructor.
  - apply IH. intros Hex. apply Hd'. now constructor 2.
Qed.

Lemma Forall_filter_keep {A} (P : A -> Prop) (f : A -> bool) (l : list A) :
  Forall P l -> Forall P (filter f l).
Proof.
  intros H. induction H as [| x r Hx Hr IH]; simpl; [constructor |].
  destruct (f x); [now constructor | exact IH].
Qed.

Lemma note_create_ids_issued (item : NoteFields) (s : Store) :
  ids_issued s -> ids_issued (snd (note_create item s)).
Proof.
  intros [Hn Hf]. unfold note_create.
  destruct (nf_title item) as [t |]; [| now split].
  destruct (String.eqb t ""); [now split |].
  split; cbn [snd notes folders next_id].
  - apply Forall_app. split.
    + eapply Forall_impl; [| exact Hn]. cbn beta. intros; lia.
    + repeat constructor. cbn [note_id]. lia.
  - eapply Forall_impl; [| exact Hf]. cbn beta. intros; lia.
Qed.

Lemma folder_create_ids_issued (item : FolderFields) (s : Store) :
  ids_issued s -> ids_issued (snd (folder_create item s)).
Proof.
  intros [Hn Hf]. unfold folder_create.
  destruct (ff_name item) as [t |]; [| now split].
  destruct (String.eqb t ""); [now split |].
  destruct (existsb (has_name t) (folders s)); [now split |].
  split; cbn [snd notes folders next_id].
  - eapply Forall_impl; [| exact Hn]. cbn beta. intros; lia.
  - apply Forall_app. split.
    + eapply Forall_impl; [| exact Hf]. cbn beta. intros; lia.
    + repeat constructor. cbn [folder_id]. lia.
Qed.

Lemma note_update_ids_issued id item opts sel (s : Store) :
  ids_issued s ->
  ids_issued (snd (note_findByIdAndUpdate id item opts sel s)).
Proof.
  intros [Hn Hf]. unfold note_findByIdAndUpdate.
  destruct (ObjectId.cast id) as [n |]; [| now split].
  destruct (find (has_note_id n) (notes s)) as [d |] eqn:E; [| now split].
  split; cbn [snd notes folders next_id set_notes]; [| exact Hf].
  apply Forall_replace; [| exact Hn].
  intros _. cbn [update_note note_id].
  apply find_some in E. destruct E as [Hin _].
  rewrite Forall_forall in Hn. now apply Hn.
Qed.

Lemma folder_update_ids_issued id item opts (s : Store) :
  ids_issued s ->
  ids_issued (snd (folder_findByIdAndUpdate id item opts s)).
Proof.
  intros [Hn Hf]. unfold folder_findByIdAndUpdate.
  destruct (ObjectId.cast id) as [n |]; [| now split].
  destruct (find (has_folder_id n) (folders s)) as [d |] eqn:E;
    [| now split].
  destruct (existsb _ _); [now split |].
  split; cbn [snd notes folders next_id set_folders]; [exact Hn |].
  apply Forall_replace; [| exact Hf].
  intros _. cbn [update_folder folder_id].
  apply find_some in E. destruct E as [Hin _].
  rewrite Forall_forall in Hf. now apply Hf.
Qed.

Lemma note_remove_ids_issued id (s : Store) :
  ids_issued s -> ids_issued (snd (note_findByIdAndRemove id s)).
Proof.
  intros [Hn Hf]. unfold note_findByIdAndRemove.
  destruct (ObjectId.cast id) as [n |]; [| now split].
  split; cbn [snd notes folders next_id set_notes]; [| exact Hf].
  now apply Forall_filter_keep.
Qed.

Lemma folder_remove_ids_issued id (s : Store) :
  ids_issued s -> ids_issued (snd (folder_findByIdAndRemove id s)).
Proof.
  intros [Hn Hf]. unfold folder_findByIdAndRemove.
  destruct (ObjectId.cast id) as [n |]; [| now split].
  split; cbn [snd notes folders next_id set_folders]; [exact Hn |].
  now apply Forall_filter_keep.
Qed.

(** Whatever a handler does, the identifiers in use stay below the
    generator. *)
Lemma run_ids_issued (h : Handler) (s : Store) :
  ids_issued s -> ids_issued (store (run textScore h s)).
Proof.
  revert s.
  induction h as [o | f p sel so k IH | id sel k IH | item k IH
                 | id item opts sel k IH | id k IH | so k IH | id k IH
                 | item k IH | id item opts k IH | id k IH];
    intros s Hs; cbn [run].
  - exact Hs.
  - now apply IH.
  - now apply IH.
  - pose proof (note_create_ids_issued item s Hs) as H.
    destruct (note_create item s) as [r s']. now apply IH.
  - pose proof (note_update_ids_issued id item opts sel s Hs) as H.
    destruct (note_findByIdAndUpdate id item opts sel s) as [r s'].
    now apply IH.
  - pose proof (note_remove_ids_issued id s Hs) as H.
    destruct (note_findByIdAndRemove id s) as [r s']. now apply IH.
  - now apply IH.
  - now apply IH.
  - pose proof (folder_create_ids_issued item s Hs) as H.
    destruct (folder_create item s) as [r s']. now apply IH.
  - pose proof (folder_update_ids_issued id item opts s Hs) as H.
    destruct (folder_findByIdAndUpdate id item opts s) as [r s'].
    now apply IH.
  - pose proof (folder_remove_ids_issued id s Hs) as H.
    destruct (folder_findByIdAndRemove id s) as [r s']. now apply IH.
Qed.

End Invariant.

(** *** Folder names *)

Section FolderNames.

Variable textScore : string -> string -> JsString -> N.

(** X3: [POST /api/folders] with a name some folder has answers 400 "The
    folder name already exists" and leaves the store as it was. *)
Lemma post_folders_duplicate_name (req : Request) (s : Store) (name : string) :
  b_name (body req) = Some name -> name <> "" ->
  existsb (has_name name) (folders s) = true ->
  response textScore POST_folders req s =
    mkResponse 400 None (JMessage "The folder name already exists")
  /\ store (serve textScore POST_folders req s) = s.
Proof.
  intros Hn Hne Hdup.
  pose proof (truthy_nonempty name Hne) as Htr.
  assert (Hemp : String.eqb name "" = false) by now apply String.eqb_neq.
  unfold response, serve, handler, FoldersRouter.post_folders.
  rewrite Hn, Htr. cbn [negb run]. unfold folder_create.
  cbn [ff_name]. rewrite Hemp, Hdup. split; reflexivity.
Qed.

(** [PUT /api/folders/:id] passes any rejection of the storage layer on as
    it is; one without a status ends as a 500. *)
Lemma put_folders_passes_rejection (req : Request) (s : Store) (e : Error) :
  truthy (b_name (body req)) = true ->
  well_formed (params_id req) ->
  fst (folder_findByIdAndUpdate (params_id req)
         (mkFolderFields (b_name (body req))) (mkOptions true) s)
    = Rejected e ->
  outcome (serve textScore PUT_folders_id req s) = NextErr e.
Proof.
  unfold well_formed. intros Htr Hv Hrej.
  unfold serve, handler, FoldersRouter.put_folders_id.
  rewrite Htr, Hv. cbn [negb run].
  destruct (folder_findByIdAndUpdate _ _ _ s) as [r s'].
  cbn [fst] in Hrej. subst r. reflexivity.
Qed.

End FolderNames.

(** ** The routes on the example store *)

Import Example.

(** C1, on the example store: a search for "gaga", and a listing. *)
Lemma get_notes_searches_or_lists_witness :
  (exists l,
     response textScore GET_notes (request "" (Some "gaga") no_body) db =
       mkResponse 200 None (JNotes (map list_view l))
     /\ Permutation l
          (filter (fun d => 0 <? score textScore "gaga" d) (notes db))
     /\ Sorted (fun a b => score textScore "gaga" b <= score textScore "gaga" a) l
     /\ ((forall d, In d (notes db) -> score textScore "gaga" d = 0) ->
         l = []))
  /\
  (exists l,
     response textScore GET_notes (request "" None no_body) db =
       mkResponse 200 None (JNotes (map list_view l))
     /\ Permutation l (notes db)
     /\ Sorted (fun a b => note_created a <= note_created b) l
     /\ (notes db = [] -> l = [])).
Proof.
  split.
  - refine (proj2 (proj1 (get_notes_searches_or_lists textScore
                            (request "" (Some "gaga") no_body) db)
                     "gaga" eq_refl _)).
    discriminate.
  - exact (proj2 (get_notes_searches_or_lists textScore
                    (request "" None no_body) db) eq_refl).
Defined.

(** C9, on the example store. *)
Lemma get_notes_empty_searchTerm_witness :
  response textScore GET_notes (request "" (Some "") no_body) db =
  response textScore GET_notes (request "" None no_body) db.
Proof.
  exact (proj1 (proj2 (proj2 (get_notes_empty_searchTerm textScore
                                (request "" (Some "") no_body) db eq_refl)))).
Defined.

(** C2 as stated fails: an identifier of 12 characters is not of the
    hexadecimal shape, yet it passes the guard: [GET] and [PUT] hand it to
    the storage layer and answer 404, not 400. *)
Lemma twelve_characters_pass_the_guard :
  ObjectId.hex24 twelve_chars = false
  /\ calls (serve textScore GET_notes_id
              (request twelve_chars None no_body) db)
     = [mkCall NotesCollection OpFindById (Some twelve_chars)]
  /\ response textScore GET_notes_id (request twelve_chars None no_body) db
     = mkResponse 404 None NoBody
  /\ response textScore GET_notes_id (request twelve_chars None no_body) db
     <> invalid_id
  /\ calls (serve textScore PUT_folders_id
              (folders_request twelve_chars (rename_to "Archive")) db)
     = [mkCall FoldersCollection OpFindByIdAndUpdate (Some twelve_chars)]
  /\ response textScore PUT_folders_id
       (folders_request twelve_chars (rename_to "Archive")) db
     <> invalid_id.
Proof.
  repeat split; discriminate.
Qed.

(** C2 (as the code has it), on the example store. *)
Lemma malformed_id_is_400_witness :
  malformed bad_id
  /\ response textScore GET_notes_id (request bad_id None dogs_update) db
     = invalid_id
  /\ response textScore PUT_notes_id (request bad_id None dogs_update) db
     = invalid_id
  /\ response textScore GET_folders_id
       (request bad_id None (rename_to "Archive")) db = invalid_id
  /\ response textScore PUT_folders_id
       (request bad_id None (rename_to "Archive")) db = invalid_id.
Proof.
  pose proof (malformed_id_is_400 textScore
                (request bad_id None dogs_update) db eq_refl) as H1.
  pose proof (malformed_id_is_400 textScore
                (request bad_id None (rename_to "Archive")) db eq_refl) as H2.
  split; [reflexivity |].
  split; [exact (proj1 H1) |].
  split; [exact (proj1 (proj2 H1) eq_refl) |].
  split; [exact (proj1 (proj2 (proj2 H2))) |].
  exact (proj2 (proj2 (proj2 H2)) eq_refl).
Defined.

(** C6, on the example store. *)
Lemma missing_field_is_400_witness :
  (response textScore POST_notes (request "" None no_body) db
     = missing_field "title"
   /\ store (serve textScore POST_notes (request "" None no_body) db) = db
   /\ calls (serve textScore POST_notes (request "" None no_body) db) = [])
  /\
  (response textScore PUT_folders_id (request bad_id None no_body) db
     = missing_field "name"
   /\ store (serve textScore PUT_folders_id (request bad_id None no_body) db)
      = db
   /\ calls (serve textScore PUT_folders_id (request bad_id None no_body) db)
      = []).
Proof.
  split.
  - exact (proj1 (missing_field_is_400 textScore
                    (request "" None no_body) db)
             eq_refl POST_notes (or_introl eq_refl)).
  - exact (proj2 (missing_field_is_400 textScore
                    (request bad_id None no_body) db)
             eq_refl PUT_folders_id (or_intror eq_refl)).
Defined.

(** C8 as stated fails: [DELETE /api/folders/:id] with a well-formed
    identifier that names no folder answers 204, not 404. *)
Lemma delete_folders_unknown_id_is_204 :
  well_formed unknown_id
  /\ stored_folder unknown_id db = None
  /\ status (response textScore DELETE_folders_id
               (request unknown_id None no_body) db) = 204
  /\ status (response textScore DELETE_folders_id
               (request unknown_id None no_body) db) <> 404.
Proof.
  repeat split. discriminate.
Qed.

(** C8 (as the code has it), on the example store. *)
Lemma unknown_id_is_404_but_folder_delete_witness :
  well_formed unknown_id
  /\ stored_note unknown_id db = None
  /\ stored_folder unknown_id db = None
  /\ status (response textScore GET_notes_id
               (request unknown_id None dogs_update) db) = 404
  /\ status (response textScore PUT_notes_id
               (request unknown_id None dogs_update) db) = 404
  /\ status (response textScore DELETE_notes_id
               (request unknown_id None dogs_update) db) = 404
  /\ status (response textScore GET_folders_id
               (request unknown_id None (rename_to "Archive")) db) = 404
  /\ status (response textScore PUT_folders_id
               (request unknown_id None (rename_to "Archive")) db) = 404
  /\ status (response textScore DELETE_folders_id
               (request unknown_id None (rename_to "Archive")) db) = 204.
Proof.
  pose proof (proj1 (unknown_id_is_404_but_folder_delete textScore
                       (request unknown_id None dogs_update) db eq_refl)
                eq_refl) as (N1 & N2 & N3).
  pose proof (proj2 (unknown_id_is_404_but_folder_delete textScore
                       (request unknown_id None (rename_to "Archive")) db
                       eq_refl)
                eq_refl) as (F1 & F2 & F3).
  exact (conj eq_refl (conj eq_refl (conj eq_refl
           (conj N1 (conj (N2 eq_refl) (conj N3
              (conj F1 (conj (F2 eq_refl) F3)))))))).
Defined.

(** C4 fails on the code: on [PUT /api/notes/:id] with the body of the
    repository's update test (title, content, folderId, tags) the answer
    carries the identifier, the title and the content only, and the stored
    note still has the folder and the tags it had before. *)
Lemma put_notes_keeps_folder_and_tags :
  truthy (b_title dogs_update) = true
  /\ well_formed (id_of 1)
  /\ stored_note (id_of 1) db = Some cats
  /\ response textScore PUT_notes_id (request (id_of 1) None dogs_update) db
     = mkResponse 200 None
         (JNote (mkNoteJson (id_of 1) (Some "What about dogs?!")
                   (Some "woof woof") None None None))
  /\ ~ replaces_every_field (request (id_of 1) None dogs_update)
         (store (serve textScore PUT_notes_id
                   (request (id_of 1) None dogs_update) db)).
Proof.
  repeat split.
  intros (d & Hd & _ & _ & Hfolder & _).
  vm_compute in Hd. injection Hd as <-.
  vm_compute in Hfolder. discriminate Hfolder.
Qed.

(** The update of a stored note, on the example store. *)
Lemma put_notes_replaces_title_and_content_witness :
  exists d',
    stored_note (id_of 1)
      (store (serve textScore PUT_notes_id
                (request (id_of 1) None dogs_update) db)) = Some d'
    /\ note_title d' = "What about dogs?!"
    /\ note_content d' = Some "woof woof"
    /\ note_folderId d' = Some 7
    /\ note_tags d' = [9]
    /\ note_id d' = 1
    /\ note_created d' = 30
    /\ response textScore PUT_notes_id (request (id_of 1) None dogs_update) db
       = mkResponse 200 None (JNote (item_view d')).
Proof.
  refine (put_notes_replaces_title_and_content textScore
            (request (id_of 1) None dogs_update) db cats "What about dogs?!"
            eq_refl _ eq_refl eq_refl).
  discriminate.
Defined.

(** C5, on the example store. *)
Lemma post_notes_then_get_witness :
  exists j,
    response textScore POST_notes (request "" None cats_article) db =
      mkResponse 201 (Some ("/api/notes/" ++ j_id j)) (JNote j)
    /\ j_title j = Some "The best article about cats ever!"
    /\ j_content j = Some "Lorem ipsum"
    /\ j_id j = id_of 10
    /\ stored_note (j_id j) db = None
    /\ forall req', params_id req' = j_id j ->
         exists j',
           response textScore GET_notes_id req'
             (store (serve textScore POST_notes
                       (request "" None cats_article) db)) =
             mkResponse 200 None (JNote j')
           /\ j_id j' = j_id j
           /\ j_title j' = Some "The best article about cats ever!"
           /\ j_content j' = Some "Lorem ipsum".
Proof.
  refine (post_notes_then_get textScore (request "" None cats_article) db
            "The best article about cats ever!" eq_refl _ _).
  - discriminate.
  - unfold ids_generated, ids_issued, db; cbn [notes folders next_id].
    repeat split; repeat constructor.
Defined.

(** C10, on the example store. *)
Lemma post_notes_ignores_folder_and_tags_witness :
  serve textScore POST_notes (request "" None cats_article) db =
  serve textScore POST_notes
    (with_folder_and_tags None [] (request "" None cats_article)) db.
Proof.
  exact (eq_sym (proj1 (post_notes_ignores_folder_and_tags textScore
                          (request "" None cats_article) db None []
                          eq_refl))).
Defined.

(** C3 fails on [DELETE]: with the malformed identifier [99-99-99] both
    [DELETE] routes call the storage layer with it, and the rejected cast
    ends as a 500; [GET] on the same identifier makes no storage call. *)
Theorem delete_reaches_storage_with_malformed_id :
  malformed bad_id
  /\ calls (serve textScore DELETE_notes_id (request bad_id None no_body) db)
     = [mkCall NotesCollection OpFindByIdAndRemove (Some bad_id)]
  /\ response textScore DELETE_notes_id (request bad_id None no_body) db
     = mkResponse 500 None (JMessage "Cast to ObjectId failed")
  /\ calls (serve textScore DELETE_folders_id (request bad_id None no_body) db)
     = [mkCall FoldersCollection OpFindByIdAndRemove (Some bad_id)]
  /\ response textScore DELETE_folders_id (request bad_id None no_body) db
     = mkResponse 500 None (JMessage "Cast to ObjectId failed")
  /\ calls (serve textScore GET_notes_id (request bad_id None no_body) db)
     = []
  /\ response textScore GET_notes_id (request bad_id None no_body) db
     = invalid_id.
Proof. repeat split. Qed.

(** C7 fails on update: renaming the folder "Work" to the name of the
    folder "Personal" is rejected by the storage layer as a duplicate, and
    [PUT /api/folders/:id] passes the rejection on, which ends as a 500;
    [POST /api/folders] with the same name answers the 400 of the claim. *)
Theorem put_folders_duplicate_name_is_500 :
  well_formed (id_of 7)
  /\ stored_folder (id_of 7) db = Some work
  /\ existsb (has_name "Personal") (folders db) = true
  /\ outcome (serve textScore PUT_folders_id
                (request (id_of 7) None (rename_to "Personal")) db)
     = NextErr DuplicateKey
  /\ response textScore PUT_folders_id
       (request (id_of 7) None (rename_to "Personal")) db
     = mkResponse 500 None (JMessage "E11000 duplicate key error")
  /\ response textScore POST_folders
       (request "" None (rename_to "Personal")) db
     = mkResponse 400 None (JMessage "The folder name already exists").
Proof. repeat split. Qed.

(** * Further properties of the routes *)

(** ** Store lemmas *)

Lemma set_notes_same (s : Store) : set_notes s (notes s) = s.
Proof. now destruct s. Qed.

Lemma set_folders_same (s : Store) : set_folders s (folders s) = s.
Proof. now destruct s. Qed.

Lemma filter_out_absent {A} (f : A -> bool) (l : list A) :
  find f l = None -> filter (fun x => negb (f x)) l = l.
Proof.
  induction l as [| x r IH]; simpl; [reflexivity |].
  destruct (f x); [discriminate |]. intros H. simpl. f_equal. now apply IH.
Qed.

Lemma find_filter_out {A} (f : A -> bool) (l : list A) :
  find f (filter (fun x => negb (f x)) l) = None.
Proof.
  induction l as [| x r IH]; simpl; [reflexivity |].
  destruct (f x) eqn:E; simpl; [exact IH |]. now rewrite E.
Qed.

Lemma find_filter_other {A} (f g : A -> bool) (l : list A) :
  (forall x, g x = true -> f x = false) ->
  find g (filter (fun x => negb (f x)) l) = find g l.
Proof.
  intros H. induction l as [| x r IH]; simpl; [reflexivity |].
  destruct (f x) eqn:E; simpl.
  - destruct (g x) eqn:G; [| exact IH].
    rewrite (H x G) in E. discriminate.
  - now rewrite IH.
Qed.

Lemma find_replace_other {A} (f g : A -> bool) (d' : A) (l : list A) :
  (forall x, g x = true -> f x = false) ->
  g d' = false ->
  find g (map (fun x => if f x then d' else x) l) = find g l.
Proof.
  intros H Hd'. induction l as [| x r IH]; simpl; [reflexivity |].
  destruct (f x) eqn:E.
  - rewrite Hd'. destruct (g x) eqn:G; [| exact IH].
    rewrite (H x G) in E. discriminate.
  - now rewrite IH.
Qed.

Lemma has_note_id_other (n m : N) (x : Note) :
  m <> n -> has_note_id m x = true -> has_note_id n x = false.
Proof.
  unfold has_note_id. intros Hne H.
  apply N.eqb_eq in H. apply N.eqb_neq. congruence.
Qed.

Lemma has_folder_id_other (n m : N) (x : Folder) :
  m <> n -> has_folder_id m x = true -> has_folder_id n x = false.
Proof.
  unfold has_folder_id. intros Hne H.
  apply N.eqb_eq in H. apply N.eqb_neq. congruence.
Qed.

(** What a storage call leaves behind when it did not find or accept the
    record. *)
Lemma note_update_unchanged id item opts sel (s : Store) r s' :
  note_findByIdAndUpdate id item opts sel s = (r, s') ->
  (forall v, r <> Fulfilled (Some v)) -> s' = s.
Proof.
  unfold note_findByIdAndUpdate.
  destruct (ObjectId.cast id) as [n |]; [| now intros [= <- <-]].
  destruct (find (has_note_id n) (notes s)); [| now intros [= <- <-]].
  intros [= <- <-] H. now elim (H _ eq_refl).
Qed.

Lemma note_remove_unchanged id (s : Store) r s' :
  note_findByIdAndRemove id s = (r, s') ->
  (forall v, r <> Fulfilled (Some v)) -> s' = s.
Proof.
  unfold note_findByIdAndRemove.
  destruct (ObjectId.cast id) as [n |]; [| now intros [= <- <-]].
  destruct (find (has_note_id n) (notes s)) eqn:E.
  - intros [= <- <-] H. now elim (H _ eq_refl).
  - intros [= <- <-] _. rewrite filter_out_absent by exact E.
    apply set_notes_same.
Qed.

Lemma note_create_unchanged item (s : Store) e s' :
  note_create item s = (Rejected e, s') -> s' = s.
Proof.
  unfold note_create.
  destruct (nf_title item) as [t |]; [| now intros [= <- <-]].
  destruct (String.eqb t ""); [now intros [= <- <-] | discriminate].
Qed.

Lemma folder_update_unchanged id item opts (s : Store) r s' :
  folder_findByIdAndUpdate id item opts s = (r, s') ->
  (forall v, r <> Fulfilled (Some v)) -> s' = s.
Proof.
  unfold folder_findByIdAndUpdate.
  destruct (ObjectId.cast id) as [n |]; [| now intros [= <- <-]].
  destruct (find (has_folder_id n) (folders s)); [| now intros [= <- <-]].
  destruct (existsb _ _); [now intros [= <- <-] |].
  intros [= <- <-] H. now elim (H _ eq_refl).
Qed.

Lemma folder_remove_unchanged id (s : Store) e s' :
  folder_findByIdAndRemove id s = (Rejected e, s') -> s' = s.
Proof.
  unfold folder_findByIdAndRemove.
  destruct (ObjectId.cast id) as [n |]; [discriminate | now intros [= <- <-]].
Qed.

Lemma folder_create_unchanged item (s : Store) e s' :
  folder_create item s = (Rejected e, s') -> s' = s.
Proof.
  unfold folder_create.
  destruct (ff_name item) as [t |]; [| now intros [= <- <-]].
  destruct (String.eqb t ""); [now intros [= <- <-] |].
  destruct (existsb _ _); [now intros [= <- <-] | discriminate].
Qed.

Ltac open_route :=
  unfold response, serve, handler,
    NotesRouter.get_notes, NotesRouter.get_notes_id, NotesRouter.post_notes,
    NotesRouter.put_notes_id, NotesRouter.delete_notes_id,
    FoldersRouter.get_folders, FoldersRouter.get_folders_id,
    FoldersRouter.post_folders, FoldersRouter.put_folders_id,
    FoldersRouter.delete_folders_id in *;
  cbv zeta in *.

Ltac split_guards :=
  repeat match goal with
    | |- context [if truthy ?x then _ else _] => destruct (truthy x) eqn:?
    | H : context [if truthy ?x then _ else _] |- _ =>
        destruct (truthy x) eqn:?
    | |- context [negb (truthy ?x)] => destruct (truthy x) eqn:?; cbn [negb]
    | |- context [negb (ObjectId.isValid ?x)] =>
        destruct (ObjectId.isValid x) eqn:?; cbn [negb]
    | H : context [negb (truthy ?x)] |- _ =>
        destruct (truthy x) eqn:?; cbn [negb] in H
    | H : context [negb (ObjectId.isValid ?x)] |- _ =>
        destruct (ObjectId.isValid x) eqn:?; cbn [negb] in H
    end.

Section MoreRoutes.

Variable textScore : string -> string -> JsString -> N.

Local Abbreviation response := (response textScore).
Local Abbreviation serve := (serve textScore).

Lemma by_name_total (a b : Folder) : by_name a b = false -> by_name b a = true.
Proof.
  unfold by_name. intros H.
  destruct (String.leb_total (folder_name a) (folder_name b)) as [E | E];
    [congruence | exact E].
Qed.

(** X1: [GET /api/folders] answers 200 with every stored folder, in ascending
    order of name. *)
Theorem get_folders_lists_by_name (req : Request) (s : Store) :
  exists l,
    response GET_folders req s =
      mkResponse 200 None (JFolders (map folder_json l))
    /\ Permutation l (folders s)
    /\ Sorted (fun a b => String.leb (folder_name a) (folder_name b) = true) l
    /\ store (serve GET_folders req s) = s.
Proof.
  exists (sort_by by_name (folders s)). repeat split.
  - apply sort_by_perm.
  - apply (sort_by_sorted by_name by_name_total).
Qed.

(** X14: no route makes more than one storage call for a request. *)
Theorem at_most_one_storage_call (r : Route) (req : Request) (s : Store) :
  (length (calls (serve r req s)) <= 1)%nat.
Proof.
  destruct r; open_route; split_guards; cbn [run calls length];
    try apply le_0_n;
    repeat match goal with
      | |- context [note_create ?i ?s] => destruct (note_create i s) as [[] ?]
      | |- context [note_findByIdAndUpdate ?a ?b ?c ?d ?s] =>
          destruct (note_findByIdAndUpdate a b c d s) as [[[]|] ?]
      | |- context [note_findByIdAndRemove ?a ?s] =>
          destruct (note_findByIdAndRemove a s) as [[[]|] ?]
      | |- context [note_findById ?a ?b ?s] =>
          destruct (note_findById a b s) as [[]|]
      | |- context [folder_create ?i ?s] =>
          destruct (folder_create i s) as [[] ?]
      | |- context [folder_findByIdAndUpdate ?a ?b ?c ?s] =>
          destruct (folder_findByIdAndUpdate a b c s) as [[[]|] ?]
      | |- context [folder_findByIdAndRemove ?a ?s] =>
          destruct (folder_findByIdAndRemove a s) as [[[]|] ?]
      | |- context [folder_findById ?a ?s] =>
          destruct (folder_findById a s) as [[]|]
      end;
    cbn; try apply le_n; try apply le_0_n.
Qed.

(** The routes that read leave the store as it was. *)
Lemma get_keeps_store (r : Route) (req : Request) (s : Store) :
  In r [GET_notes; GET_notes_id; GET_folders; GET_folders_id] ->
  store (serve r req s) = s.
Proof.
  intros Hr. repeat (destruct Hr as [<- | Hr]); try contradiction;
    open_route; split_guards; cbn [run store logged]; try reflexivity.
  - destruct (note_findById _ _ s) as [[] |]; reflexivity.
  - destruct (folder_findById _ s) as [[] |]; reflexivity.
Qed.

(** X15: a request that is answered with an error status (400, 404, 500) leaves
    the store as it was: nothing is created, changed or removed. *)
Theorem failed_request_keeps_store (r : Route) (req : Request) (s : Store) :
  400 <= status (response r req s) ->
  store (serve r req s) = s.
Proof.
  destruct r;
    try (intros _; apply get_keeps_store; cbn; tauto);
    open_route; split_guards; cbn [run store logged];
    try (intros _; reflexivity).
  - destruct (note_create _ s) as [[v | e] s'] eqn:E; cbn; intros H.
    + lia.
    + now apply note_create_unchanged in E.
  - destruct (note_findByIdAndUpdate _ _ _ _ s) as [[[v |] | e] s'] eqn:E;
      cbn; intros H; [lia | |];
      (eapply note_update_unchanged; [exact E | intros; discriminate]).
  - destruct (note_findByIdAndRemove _ s) as [[[v |] | e] s'] eqn:E;
      cbn; intros H; [lia | |];
      (eapply note_remove_unchanged; [exact E | intros; discriminate]).
  - destruct (folder_create _ s) as [[v | e] s'] eqn:E; cbn; intros H.
    + lia.
    + now apply folder_create_unchanged in E.
  - destruct (folder_findByIdAndUpdate _ _ _ s) as [[[v |] | e] s'] eqn:E;
      cbn; intros H; [lia | |];
      (eapply folder_update_unchanged; [exact E | intros; discriminate]).
  - destruct (folder_findByIdAndRemove _ s) as [[v | e] s'] eqn:E;
      cbn; intros H; [lia |].
    now apply folder_remove_unchanged in E.
Qed.

(** The rejections of the storage layer carry no status of their own. *)
Lemma note_findById_rejection id sel (s : Store) e :
  note_findById id sel s = Rejected e -> err_status e = None.
Proof.
  unfold note_findById. destruct (ObjectId.cast id); [discriminate |].
  now intros [= <-].
Qed.

Lemma folder_findById_rejection id (s : Store) e :
  folder_findById id s = Rejected e -> err_status e = None.
Proof.
  unfold folder_findById. destruct (ObjectId.cast id); [discriminate |].
  now intros [= <-].
Qed.

Lemma note_create_rejection item (s : Store) e s' :
  note_create item s = (Rejected e, s') -> err_status e = None.
Proof.
  unfold note_create. destruct (nf_title item) as [t |];
    [destruct (String.eqb t "") |]; intros [= <-]; reflexivity.
Qed.

Lemma note_update_rejection id item opts sel (s : Store) e s' :
  note_findByIdAndUpdate id item opts sel s = (Rejected e, s') ->
  err_status e = None.
Proof.
  unfold note_findByIdAndUpdate. destruct (ObjectId.cast id) as [n |];
    [destruct (find (has_note_id n) (notes s)) |]; intros [= <-]; reflexivity.
Qed.

Lemma note_remove_rejection id (s : Store) e s' :
  note_findByIdAndRemove id s = (Rejected e, s') -> err_status e = None.
Proof.
  unfold note_findByIdAndRemove. destruct (ObjectId.cast id) as [n |];
    intros [= <-]; reflexivity.
Qed.

Lemma folder_create_rejection item (s : Store) e s' :
  folder_create item s = (Rejected e, s') -> err_status e = None.
Proof.
  unfold folder_create. destruct (ff_name item) as [t |];
    [destruct (String.eqb t ""); [| destruct (existsb _ _)] |];
    intros [= <-]; reflexivity.
Qed.

Lemma folder_update_rejection id item opts (s : Store) e s' :
  folder_findByIdAndUpdate id item opts s = (Rejected e, s') ->
  err_status e = None.
Proof.
  unfold folder_findByIdAndUpdate. destruct (ObjectId.cast id) as [n |];
    [destruct (find (has_folder_id n) (folders s));
     [destruct (existsb _ _) |] |];
    intros [= <-]; reflexivity.
Qed.

Lemma folder_remove_rejection id (s : Store) e s' :
  folder_findByIdAndRemove id s = (Rejected e, s') -> err_status e = None.
Proof.
  unfold folder_findByIdAndRemove. destruct (ObjectId.cast id) as [n |];
    intros [= <-]; reflexivity.
Qed.

(** X16: every request is answered with one of 200, 201, 204, 400, 404 and 500;
    201 comes from the two [POST] routes only and 204 from the two [DELETE]
    routes only. *)
Theorem response_statuses (r : Route) (req : Request) (s : Store) :
  In (status (response r req s)) [200; 201; 204; 400; 404; 500]
  /\ (status (response r req s) = 201 -> r = POST_notes \/ r = POST_folders)
  /\ (status (response r req s) = 204 ->
      r = DELETE_notes_id \/ r = DELETE_folders_id).
Proof.
  destruct r; open_route; split_guards; cbn [run outcome logged].
  all: try (cbn; repeat split; (tauto || discriminate)).
  - destruct (note_findById _ _ s) as [[v |] | e] eqn:E; cbn;
      try (repeat split; (tauto || discriminate)).
    rewrite (note_findById_rejection _ _ _ _ E).
    repeat split; (tauto || discriminate).
  - destruct (note_create _ s) as [[v | e] s'] eqn:E; cbn;
      try (repeat split; (tauto || discriminate)).
    rewrite (note_create_rejection _ _ _ _ E).
    repeat split; (tauto || discriminate).
  - destruct (note_findByIdAndUpdate _ _ _ _ s) as [[[v |] | e] s'] eqn:E;
      cbn; try (repeat split; (tauto || discriminate)).
    rewrite (note_update_rejection _ _ _ _ _ _ _ E).
    repeat split; (tauto || discriminate).
  - destruct (note_findByIdAndRemove _ s) as [[[v |] | e] s'] eqn:E;
      cbn; try (repeat split; (tauto || discriminate)).
    rewrite (note_remove_rejection _ _ _ _ E).
    repeat split; (tauto || discriminate).
  - destruct (folder_findById _ s) as [[v |] | e] eqn:E; cbn;
      try (repeat split; (tauto || discriminate)).
    rewrite (folder_findById_rejection _ _ _ E).
    repeat split; (tauto || discriminate).
  - destruct (folder_create _ s) as [[v | e] s'] eqn:E; cbn;
      try (repeat split; (tauto || discriminate)).
    pose proof (folder_create_rejection _ _ _ _ E) as Hst.
    destruct (err_code e) as [code |]; [destruct (code =? 11000) |];
      cbn; rewrite ?Hst; repeat split; (tauto || discriminate).
  - destruct (folder_findByIdAndUpdate _ _ _ s) as [[[v |] | e] s'] eqn:E;
      cbn; try (repeat split; (tauto || discriminate)).
    rewrite (folder_update_rejection _ _ _ _ _ _ E).
    repeat split; (tauto || discriminate).
  - destruct (folder_findByIdAndRemove _ s) as [[v | e] s'] eqn:E;
      cbn; try (repeat split; (tauto || discriminate)).
    rewrite (folder_remove_rejection _ _ _ _ E).
    repeat split; (tauto || discriminate).
Qed.

(** ** Deleting *)

Lemma filter_twice {A} (f : A -> bool) (l : list A) :
  filter f (filter f l) = filter f l.
Proof.
  induction l as [| x r IH]; simpl; [reflexivity |].
  destruct (f x) eqn:E; simpl; [rewrite E; now f_equal | exact IH].
Qed.

Lemma cast_other (id id' : string) (n : N) :
  ObjectId.cast id = Some n -> ObjectId.cast id' <> ObjectId.cast id ->
  forall m, ObjectId.cast id' = Some m -> m <> n.
Proof. intros Hc Hne m Hm ->. apply Hne. now rewrite Hc, Hm. Qed.

(** X9: [DELETE /api/notes/:id] on a stored note answers 204 and removes that
    note and nothing else: a [GET] or a second [DELETE] with the same
    identifier then answers 404, every note under another identifier is
    still stored, and the folders are untouched. *)
Theorem delete_notes_removes_the_note
    (req : Request) (s : Store) (d : Note) :
  well_formed (params_id req) ->
  stored_note (params_id req) s = Some d ->
  status (response DELETE_notes_id req s) = 204
  /\ stored_note (params_id req) (store (serve DELETE_notes_id req s)) = None
  /\ status (response GET_notes_id req (store (serve DELETE_notes_id req s)))
     = 404
  /\ status (response DELETE_notes_id req
               (store (serve DELETE_notes_id req s))) = 404
  /\ folders (store (serve DELETE_notes_id req s)) = folders s
  /\ forall id',
       ObjectId.cast id' <> ObjectId.cast (params_id req) ->
       stored_note id' (store (serve DELETE_notes_id req s))
       = stored_note id' s.
Proof.
  unfold well_formed, stored_note. intros Hv Hd.
  destruct (ObjectId.cast (params_id req)) as [n |] eqn:Hc; [| discriminate].
  assert (Hrun : serve DELETE_notes_id req s =
                 mkRun (ResEnd 204)
                   (set_notes s
                      (filter (fun x => negb (has_note_id n x)) (notes s)))
                   [mkCall NotesCollection OpFindByIdAndRemove
                      (Some (params_id req))]).
  { open_route. cbn [run]. unfold note_findByIdAndRemove.
    rewrite Hc, Hd. reflexivity. }
  unfold response. rewrite Hrun. cbn [store outcome respond status].
  split; [reflexivity |]. split; [apply find_filter_out |].
  split; [| split; [| split; [reflexivity |]]].
  - open_route. rewrite Hv. cbn [negb run]. unfold note_findById.
    rewrite Hc. cbn [notes set_notes]. rewrite find_filter_out. reflexivity.
  - open_route. cbn [run]. unfold note_findByIdAndRemove.
    rewrite Hc. cbn [notes set_notes]. rewrite find_filter_out. reflexivity.
  - intros id' Hne. cbn [notes set_notes].
    destruct (ObjectId.cast id') as [m |] eqn:Hm; [| reflexivity].
    apply find_filter_other. intros x.
    apply has_note_id_other. intros ->. now apply Hne.
Qed.

(** X8: [DELETE /api/folders/:id] is idempotent: a second request gets the same
    response as the first and leaves the store the first left; with a
    well-formed identifier the response is 204, no folder is stored under
    it afterwards, and the notes are untouched. *)
Theorem delete_folders_is_idempotent (req : Request) (s : Store) :
  response DELETE_folders_id req (store (serve DELETE_folders_id req s))
  = response DELETE_folders_id req s
  /\ store (serve DELETE_folders_id req
              (store (serve DELETE_folders_id req s)))
     = store (serve DELETE_folders_id req s)
  /\ (well_formed (params_id req) ->
      status (response DELETE_folders_id req s) = 204
      /\ stored_folder (params_id req)
           (store (serve DELETE_folders_id req s)) = None
      /\ notes (store (serve DELETE_folders_id req s)) = notes s).
Proof.
  unfold well_formed, stored_folder.
  open_route. cbn [run]. unfold folder_findByIdAndRemove.
  destruct (ObjectId.cast (params_id req)) as [n |] eqn:Hc;
    cbn [run catch_next next_err logged store outcome respond status
         folders notes set_folders].
  - rewrite filter_twice, find_filter_out. repeat split.
  - split; [reflexivity | split; [reflexivity |]].
    intros Hv. destruct (ObjectIdFacts.cast_well_formed _ Hv) as [n Hn].
    congruence.
Qed.

(** ** Creating and renaming folders *)

Lemma find_app_folder_generated (d : Folder) (l : list Folder) :
  Forall (fun x => folder_id x < folder_id d) l ->
  find (has_folder_id (folder_id d)) (l ++ [d]) = Some d.
Proof.
  intros H. induction H as [| x r Hx Hr IH]; simpl.
  - unfold has_folder_id. now rewrite N.eqb_refl.
  - unfold has_folder_id at 1.
    assert (E : (folder_id x =? folder_id d) = false)
      by (apply N.eqb_neq; lia).
    rewrite E. exact IH.
Qed.

Lemma existsb_absent {A} (f : A -> bool) (l : list A) :
  (forall x, In x l -> f x = false) -> existsb f l = false.
Proof.
  intros H. induction l as [| x r IH]; simpl; [reflexivity |].
  rewrite (H x (or_introl eq_refl)). apply IH.
  intros y Hy. apply H. now right.
Qed.

Lemma find_replace_folder (n : N) (d d' : Folder) (l : list Folder) :
  find (has_folder_id n) l = Some d ->
  has_folder_id n d' = true ->
  find (has_folder_id n)
    (map (fun x => if has_folder_id n x then d' else x) l) = Some d'.
Proof.
  intros Hf Hd'. induction l as [| x r IH]; simpl in *; [discriminate |].
  destruct (has_folder_id n x) eqn:E.
  - now rewrite Hd'.
  - rewrite E. now apply IH.
Qed.

(** X5: [POST /api/folders] with a name no folder has answers 201 with a
    [Location] that ends in the generated identifier and a body with that
    identifier and the name; [GET /api/folders/:id] with the identifier
    then answers 200 with the same body. *)
Theorem post_folders_then_get (req : Request) (s : Store) (name : string) :
  b_name (body req) = Some name -> name <> "" ->
  existsb (has_name name) (folders s) = false ->
  ids_generated s ->
  exists j,
    response POST_folders req s =
      mkResponse 201 (Some (originalUrl req ++ "/" ++ fj_id j)) (JFolder j)
    /\ fj_name j = name
    /\ fj_id j = ObjectId.toHexString (next_id s)
    /\ forall req', params_id req' = fj_id j ->
         response GET_folders_id req' (store (serve POST_folders req s)) =
           mkResponse 200 None (JFolder j).
Proof.
  intros Hn Hne Hnew ((_ & Hfolders) & Hbound).
  pose proof (truthy_nonempty name Hne) as Htr.
  assert (Hemp : String.eqb name "" = false) by now apply String.eqb_neq.
  set (d := mkFolder (next_id s) name).
  assert (Hrun : serve POST_folders req s =
                 mkRun (ResJson 201
                          (Some (originalUrl req ++ "/" ++
                                 ObjectId.toHexString (next_id s)))
                          (JFolder (folder_json d)))
                   (mkStore (notes s) (folders s ++ [d])
                      (next_id s + 1) (clock s))
                   [mkCall FoldersCollection OpCreate None]).
  { open_route. rewrite Hn, Htr. cbn [negb run]. unfold folder_create.
    cbn [ff_name]. rewrite Hemp, Hnew. reflexivity. }
  exists (folder_json d). unfold response. rewrite Hrun.
  cbn [store outcome respond]. repeat split.
  intros req' Hid. cbn [folder_json fj_id folder_id d] in Hid.
  open_route. rewrite Hid, ObjectIdFacts.isValid_toHexString.
  cbn [negb run]. unfold folder_findById.
  rewrite (ObjectIdFacts.cast_toHexString _ Hbound). cbn [folders].
  pose proof (find_app_folder_generated d (folders s) Hfolders) as Hfound.
  cbn [folder_id d] in Hfound. rewrite Hfound. reflexivity.
Qed.

(** X6: once [POST /api/folders] was asked to create a name, asking again is
    answered 400 "The folder name already exists", whether the first
    request created the folder or found the name taken. *)
Theorem post_folders_twice (req : Request) (s : Store) (name : string) :
  b_name (body req) = Some name -> name <> "" ->
  response POST_folders req (store (serve POST_folders req s)) =
    mkResponse 400 None (JMessage "The folder name already exists").
Proof.
  intros Hn Hne.
  pose proof (truthy_nonempty name Hne) as Htr.
  assert (Hemp : String.eqb name "" = false) by now apply String.eqb_neq.
  assert (Hdup : existsb (has_name name)
                   (folders (store (serve POST_folders req s))) = true).
  { open_route. rewrite Hn, Htr. cbn [negb run]. unfold folder_create.
    cbn [ff_name]. rewrite Hemp.
    destruct (existsb (has_name name) (folders s)) eqn:E.
    - exact E.
    - cbn [run catch_next logged store folders].
      rewrite existsb_app. cbn [existsb].
      unfold has_name at 2. cbn [folder_name].
      rewrite String.eqb_refl. now rewrite orb_true_r. }
  generalize dependent (store (serve POST_folders req s)). intros s' Hdup.
  open_route. rewrite Hn, Htr. cbn [negb run]. unfold folder_create.
  cbn [ff_name]. rewrite Hemp, Hdup. reflexivity.
Qed.

(** X7: [PUT /api/folders/:id] with a name no other folder has, on a stored
    folder, answers 200 with the folder under its new name; the folder is
    then stored under that name with the identifier it had, and the notes
    are untouched. *)
Theorem put_folders_renames
    (req : Request) (s : Store) (d : Folder) (name : string) :
  b_name (body req) = Some name -> name <> "" ->
  well_formed (params_id req) ->
  stored_folder (params_id req) s = Some d ->
  (forall f, In f (folders s) -> folder_name f = name ->
             folder_id f = folder_id d) ->
  response PUT_folders_id req s =
    mkResponse 200 None (JFolder (folder_json (mkFolder (folder_id d) name)))
  /\ stored_folder (params_id req) (store (serve PUT_folders_id req s))
     = Some (mkFolder (folder_id d) name)
  /\ notes (store (serve PUT_folders_id req s)) = notes s.
Proof.
  unfold well_formed, stored_folder. intros Hn Hne Hv Hd Hothers.
  destruct (ObjectId.cast (params_id req)) as [n |] eqn:Hc; [| discriminate].
  pose proof (truthy_nonempty name Hne) as Htr.
  assert (Hid : folder_id d = n).
  { apply find_some in Hd. destruct Hd as [_ Hd]. now apply N.eqb_eq. }
  set (d' := mkFolder (folder_id d) name).
  assert (Hfree : existsb (has_name name)
                    (filter (fun x => negb (has_folder_id n x)) (folders s))
                  = false).
  { apply existsb_absent. intros x Hx.
    apply filter_In in Hx. destruct Hx as [Hin Hx].
    unfold has_name. destruct (String.eqb (folder_name x) name) eqn:E;
      [| reflexivity].
    apply String.eqb_eq in E. specialize (Hothers x Hin E).
    apply negb_true_iff, N.eqb_neq in Hx. congruence. }
  assert (Hrun : serve PUT_folders_id req s =
                 mkRun (ResJson 200 None (JFolder (folder_json d')))
                   (set_folders s
                      (map (fun x => if has_folder_id n x then d' else x)
                         (folders s)))
                   [mkCall FoldersCollection OpFindByIdAndUpdate
                      (Some (params_id req))]).
  { open_route. rewrite Hn, Htr, Hv. cbn [negb run].
    unfold folder_findByIdAndUpdate. rewrite Hc, Hd.
    cbn [update_folder ff_name folder_name]. rewrite Hfree. reflexivity. }
  unfold response. rewrite Hrun.
  cbn [store outcome respond folders notes set_folders].
  repeat split.
  apply find_replace_folder with (d := d); [exact Hd |].
  unfold has_folder_id, d'. cbn [folder_id]. now apply N.eqb_eq.
Qed.

(** ** Reading, updating and creating notes *)

(** X10: [GET /api/notes/:id] on a stored note answers 200 with the identifier,
    the title and the content of the note and no other field, and leaves
    the store as it was. *)
Theorem get_notes_id_found (req : Request) (s : Store) (d : Note) :
  well_formed (params_id req) ->
  stored_note (params_id req) s = Some d ->
  response GET_notes_id req s =
    mkResponse 200 None
      (JNote (mkNoteJson (ObjectId.toHexString (note_id d))
                (Some (note_title d)) (note_content d) None None None))
  /\ ObjectId.cast (params_id req) = Some (note_id d)
  /\ store (serve GET_notes_id req s) = s.
Proof.
  unfold well_formed, stored_note. intros Hv Hd.
  destruct (ObjectId.cast (params_id req)) as [n |] eqn:Hc; [| discriminate].
  pose proof (find_has_note_id n d (notes s) Hd) as Hid.
  open_route. rewrite Hv. cbn [negb run]. unfold note_findById.
  rewrite Hc, Hd. subst n. repeat split.
Qed.

(** X11: every note in the answer of [GET /api/notes], with or without a search
    term, carries its title and its creation time and neither folder nor
    tags; without a search term there are as many as stored notes. *)
Theorem get_notes_fields (req : Request) (s : Store) :
  exists l,
    response GET_notes req s = mkResponse 200 None (JNotes l)
    /\ Forall (fun j => j_title j <> None /\ j_created j <> None
                        /\ j_folderId j = None /\ j_tags j = None) l
    /\ (truthy (query_searchTerm req) = false ->
        length l = length (notes s)).
Proof.
  open_route.
  destruct (truthy (query_searchTerm req)) eqn:Ht; cbn [run];
    unfold note_find; eexists; (split; [reflexivity |]); split.
  - apply Forall_forall. intros j Hj. apply in_map_iff in Hj.
    destruct Hj as (d & <- & _). repeat split; discriminate.
  - discriminate.
  - apply Forall_forall. intros j Hj. apply in_map_iff in Hj.
    destruct Hj as (d & <- & _). repeat split; discriminate.
  - intros _. rewrite length_map. cbn [sort_notes String.eqb Ascii.eqb
      Bool.eqb andb].
    rewrite (Permutation_length (sort_by_perm by_created _)).
    f_equal. clear. induction (notes s) as [| d r IH]; simpl;
      [reflexivity | now f_equal].
Qed.

Lemma find_app_found {A} (f : A -> bool) (l l' : list A) (d : A) :
  find f l = Some d -> find f (l ++ l') = Some d.
Proof.
  induction l as [| x r IH]; simpl; [discriminate |].
  destruct (f x); [trivial | exact IH].
Qed.

(** X12: [POST /api/notes] adds one note and touches nothing else: every note
    stored before is stored after under the same identifier, the folders
    are the same, and the new note is stamped with the clock of the
    store. *)
Theorem post_notes_adds_one_note (req : Request) (s : Store) :
  truthy (b_title (body req)) = true ->
  length (notes (store (serve POST_notes req s))) = S (length (notes s))
  /\ folders (store (serve POST_notes req s)) = folders s
  /\ (forall id d, stored_note id s = Some d ->
       stored_note id (store (serve POST_notes req s)) = Some d)
  /\ exists d, notes (store (serve POST_notes req s)) = (notes s ++ [d])%list
       /\ note_id d = next_id s /\ note_created d = clock s.
Proof.
  intros Htr. destruct (truthy_inv _ Htr) as (title & Ht & Hemp).
  open_route. rewrite Htr. cbn [negb run]. unfold note_create.
  cbn [nf_title nf_content]. rewrite Ht, Hemp.
  cbn [run catch_next logged store notes folders].
  repeat split.
  - rewrite length_app. cbn [length]. lia.
  - intros id d. unfold stored_note. cbn [notes].
    destruct (ObjectId.cast id); [apply find_app_found | discriminate].
  - eexists. repeat split.
Qed.

(** X13: after [PUT /api/notes/:id] on a stored note, [GET /api/notes/:id] with
    the same identifier answers what the [PUT] answered; the notes under
    other identifiers, the number of notes and the folders are as before. *)
Theorem put_notes_then_get
    (req : Request) (s : Store) (d : Note) (title : string) :
  b_title (body req) = Some title -> title <> "" ->
  well_formed (params_id req) ->
  stored_note (params_id req) s = Some d ->
  response GET_notes_id req (store (serve PUT_notes_id req s))
  = response PUT_notes_id req s
  /\ status (response PUT_notes_id req s) = 200
  /\ length (notes (store (serve PUT_notes_id req s))) = length (notes s)
  /\ folders (store (serve PUT_notes_id req s)) = folders s
  /\ forall id',
       ObjectId.cast id' <> ObjectId.cast (params_id req) ->
       stored_note id' (store (serve PUT_notes_id req s))
       = stored_note id' s.
Proof.
  unfold well_formed, stored_note. intros Ht Hne Hv Hd.
  destruct (ObjectId.cast (params_id req)) as [n |] eqn:Hc; [| discriminate].
  pose proof (truthy_nonempty title Hne) as Htr.
  set (d' := update_note (mkNoteFields (Some title) (b_content (body req))) d).
  assert (Hd' : has_note_id n d' = true).
  { unfold has_note_id, d'; simpl. apply N.eqb_eq.
    now apply find_has_note_id with (l := notes s). }
  assert (Hrun : serve PUT_notes_id req s =
                 mkRun (ResJson 200 None (JNote (item_view d')))
                   (set_notes s
                      (map (fun x => if has_note_id n x then d' else x)
                         (notes s)))
                   [mkCall NotesCollection OpFindByIdAndUpdate
                      (Some (params_id req))]).
  { open_route. rewrite Ht, Htr, Hv. cbn [negb run].
    unfold note_findByIdAndUpdate. rewrite Hc, Hd. reflexivity. }
  unfold response. rewrite Hrun.
  cbn [store outcome respond status notes folders set_notes].
  split; [| split; [reflexivity | split; [apply length_map |
                                          split; [reflexivity |]]]].
  - open_route. rewrite Hv. cbn [negb run]. unfold note_findById.
    rewrite Hc. cbn [notes set_notes].
    rewrite (find_map_replace n d d' (notes s) Hd Hd'). reflexivity.
  - intros id' Hne'.
    destruct (ObjectId.cast id') as [m |] eqn:Hm; [| reflexivity].
    assert (Hmn : m <> n) by (intros ->; now apply Hne').
    apply find_replace_other.
    + intros x. now apply has_note_id_other.
    + unfold has_note_id in *. apply N.eqb_eq in Hd'. apply N.eqb_neq.
      congruence.
Qed.

(** ** The rejections [POST /api/folders] catches *)

(** X4: in [POST /api/folders] a rejection of the storage call with code
    11000 is replaced by the 400 error "The folder name already exists",
    whatever its message and status; any other rejection is passed on as it
    is. *)
Theorem post_folders_catch (req : Request) (e : Error) :
  truthy (b_name (body req)) = true ->
  (err_code e = Some 11000 ->
   on_rejection (FoldersRouter.post_folders req) e =
     next_err (new_Error_status "The folder name already exists" 400))
  /\ (err_code e <> Some 11000 ->
      on_rejection (FoldersRouter.post_folders req) e = next_err e).
Proof.
  intros Htr. unfold FoldersRouter.post_folders. rewrite Htr.
  cbn [negb on_rejection]. split.
  - intros ->. reflexivity.
  - intros Hne. destruct (err_code e) as [code |]; [| reflexivity].
    destruct (code =? 11000) eqn:E; [| reflexivity].
    apply N.eqb_eq in E. congruence.
Qed.

End MoreRoutes.

(** ** The further properties on the example store *)

Lemma malformed_id_get_put_no_storage_witness :
  malformed bad_id
  /\ calls (serve textScore PUT_notes_id (request bad_id None dogs_update) db)
     = []
  /\ store (serve textScore PUT_notes_id (request bad_id None dogs_update) db)
     = db.
Proof.
  exact (conj eq_refl
           (malformed_id_get_put_no_storage textScore PUT_notes_id
              (request bad_id None dogs_update) db eq_refl
              (or_intror (or_introl eq_refl)))).
Defined.

Lemma post_folders_duplicate_name_witness :
  response textScore POST_folders
    (folders_request "" (rename_to "Personal")) db =
    mkResponse 400 None (JMessage "The folder name already exists")
  /\ store (serve textScore POST_folders
              (folders_request "" (rename_to "Personal")) db) = db.
Proof.
  refine (post_folders_duplicate_name textScore
            (folders_request "" (rename_to "Personal")) db "Personal"
            eq_refl _ eq_refl).
  discriminate.
Defined.

Lemma post_folders_catch_witness :
  on_rejection
    (FoldersRouter.post_folders (folders_request "" (rename_to "Archive")))
    DuplicateKey =
    next_err (new_Error_status "The folder name already exists" 400)
  /\ on_rejection
       (FoldersRouter.post_folders (folders_request "" (rename_to "Archive")))
       CastError = next_err CastError.
Proof.
  split.
  - exact (proj1 (post_folders_catch
                    (folders_request "" (rename_to "Archive")) DuplicateKey
                    eq_refl) eq_refl).
  - refine (proj2 (post_folders_catch
                     (folders_request "" (rename_to "Archive")) CastError
                     eq_refl) _).
    discriminate.
Defined.

Lemma post_folders_then_get_witness :
  exists j,
    response textScore POST_folders
      (folders_request "" (rename_to "Archive")) db =
      mkResponse 201 (Some ("/api/folders/" ++ fj_id j)) (JFolder j)
    /\ fj_name j = "Archive"
    /\ fj_id j = id_of 10
    /\ forall req', params_id req' = fj_id j ->
         response textScore GET_folders_id req'
           (store (serve textScore POST_folders
                     (folders_request "" (rename_to "Archive")) db)) =
           mkResponse 200 None (JFolder j).
Proof.
  refine (post_folders_then_get textScore
            (folders_request "" (rename_to "Archive")) db "Archive"
            eq_refl _ eq_refl _).
  - discriminate.
  - unfold ids_generated, ids_issued, db; cbn [notes folders next_id].
    repeat split; repeat constructor.
Defined.

Lemma post_folders_twice_witness :
  response textScore POST_folders (folders_request "" (rename_to "Archive"))
    (store (serve textScore POST_folders
              (folders_request "" (rename_to "Archive")) db)) =
    mkResponse 400 None (JMessage "The folder name already exists").
Proof.
  refine (post_folders_twice textScore
            (folders_request "" (rename_to "Archive")) db "Archive"
            eq_refl _).
  discriminate.
Defined.

Lemma put_folders_renames_witness :
  response textScore PUT_folders_id
    (folders_request (id_of 7) (rename_to "Office")) db =
    mkResponse 200 None (JFolder (mkFolderJson (id_of 7) "Office"))
  /\ stored_folder (id_of 7)
       (store (serve textScore PUT_folders_id
                 (folders_request (id_of 7) (rename_to "Office")) db))
     = Some (mkFolder 7 "Office")
  /\ notes (store (serve textScore PUT_folders_id
                     (folders_request (id_of 7) (rename_to "Office")) db))
     = notes db.
Proof.
  refine (put_folders_renames textScore
            (folders_request (id_of 7) (rename_to "Office")) db work "Office"
            eq_refl _ eq_refl eq_refl _).
  - discriminate.
  - intros f [<- | [<- | []]]; simpl; intros H; [reflexivity | discriminate].
Defined.

Lemma delete_folders_is_idempotent_witness :
  well_formed (id_of 7)
  /\ status (response textScore DELETE_folders_id
               (folders_request (id_of 7) no_body) db) = 204
  /\ stored_folder (id_of 7)
       (store (serve textScore DELETE_folders_id
                 (folders_request (id_of 7) no_body) db)) = None
  /\ notes (store (serve textScore DELETE_folders_id
                     (folders_request (id_of 7) no_body) db)) = notes db.
Proof.
  exact (conj eq_refl
           (proj2 (proj2 (delete_folders_is_idempotent textScore
                            (folders_request (id_of 7) no_body) db))
              eq_refl)).
Defined.

Lemma delete_notes_removes_the_note_witness :
  status (response textScore DELETE_notes_id
            (request (id_of 1) None no_body) db) = 204
  /\ stored_note (id_of 1)
       (store (serve textScore DELETE_notes_id
                 (request (id_of 1) None no_body) db)) = None.
Proof.
  pose proof (delete_notes_removes_the_note textScore
                (request (id_of 1) None no_body) db cats eq_refl eq_refl)
    as (H1 & H2 & _).
  exact (conj H1 H2).
Defined.

Lemma get_notes_id_found_witness :
  response textScore GET_notes_id (request (id_of 2) None no_body) db =
    mkResponse 200 None
      (JNote (mkNoteJson (id_of 2) (Some (note_title gaga))
                (Some "gaga gaga") None None None))
  /\ ObjectId.cast (id_of 2) = Some 2
  /\ store (serve textScore GET_notes_id (request (id_of 2) None no_body) db)
     = db.
Proof.
  exact (get_notes_id_found textScore (request (id_of 2) None no_body) db
           gaga eq_refl eq_refl).
Defined.

Lemma get_notes_fields_witness :
  exists l,
    response textScore GET_notes (request "" None no_body) db =
      mkResponse 200 None (JNotes l)
    /\ length l = 3%nat.
Proof.
  destruct (get_notes_fields textScore (request "" None no_body) db)
    as (l & H1 & _ & H3).
  exists l. exact (conj H1 (H3 eq_refl)).
Defined.

Lemma post_notes_adds_one_note_witness :
  length (notes (store (serve textScore POST_notes
                          (request "" None cats_article) db))) = 4%nat
  /\ folders (store (serve textScore POST_notes
                       (request "" None cats_article) db)) = folders db.
Proof.
  pose proof (post_notes_adds_one_note textScore
                (request "" None cats_article) db eq_refl) as (H1 & H2 & _).
  exact (conj H1 H2).
Defined.

Lemma put_notes_then_get_witness :
  response textScore GET_notes_id (request (id_of 1) None dogs_update)
    (store (serve textScore PUT_notes_id
              (request (id_of 1) None dogs_update) db))
  = response textScore PUT_notes_id (request (id_of 1) None dogs_update) db.
Proof.
  refine (proj1 (put_notes_then_get textScore
                   (request (id_of 1) None dogs_update) db cats
                   "What about dogs?!" eq_refl _ eq_refl eq_refl)).
  discriminate.
Defined.

Lemma failed_request_keeps_store_witness :
  status (response textScore DELETE_notes_id
            (request unknown_id None no_body) db) = 404
  /\ store (serve textScore DELETE_notes_id
              (request unknown_id None no_body) db) = db.
Proof.
  refine (conj eq_refl
            (failed_request_keeps_store textScore DELETE_notes_id
               (request unknown_id None no_body) db _)).
  vm_compute. discriminate.
Defined.

Lemma response_statuses_witness :
  status (response textScore POST_notes (request "" None cats_article) db)
  = 201
  /\ (POST_notes = POST_notes \/ POST_notes = POST_folders)
  /\ status (response textScore DELETE_notes_id
               (request (id_of 1) None no_body) db) = 204
  /\ (DELETE_notes_id = DELETE_notes_id \/ DELETE_notes_id = DELETE_folders_id).
Proof.
  exact (conj eq_refl
           (conj (proj1 (proj2 (response_statuses textScore POST_notes
                                  (request "" None cats_article) db))
                    eq_refl)
              (conj eq_refl
                 (proj2 (proj2 (response_statuses textScore DELETE_notes_id
                                  (request (id_of 1) None no_body) db))
                    eq_refl)))).
Defined.

(** ** Listing after creating, and reading a folder *)

Section Listing.

Variable textScore : string -> string -> JsString -> N.

(** X17: after [POST /api/notes], [GET /api/notes] without a search term
    lists the notes stored before and the created note, one more than
    before. *)
Theorem post_notes_then_list (req req' : Request) (s : Store) :
  truthy (b_title (body req)) = true ->
  truthy (query_searchTerm req') = false ->
  exists d l,
    notes (store (serve textScore POST_notes req s)) = (notes s ++ [d])%list
    /\ Some (note_title d) = b_title (body req)
    /\ response textScore GET_notes req'
         (store (serve textScore POST_notes req s)) =
       mkResponse 200 None (JNotes (map list_view l))
    /\ Permutation l (notes s ++ [d])
    /\ In d l
    /\ length l = S (length (notes s)).
Proof.
  intros Htr Hq. destruct (truthy_inv _ Htr) as (title & Ht & Hemp).
  set (d := mkNote (next_id s) title (b_content (body req)) None [] (clock s)).
  assert (Hs : notes (store (serve textScore POST_notes req s))
               = (notes s ++ [d])%list).
  { open_route. rewrite Htr. cbn [negb run]. unfold note_create.
    cbn [nf_title nf_content]. rewrite Ht, Hemp. reflexivity. }
  destruct (get_notes_unfiltered textScore req'
              (store (serve textScore POST_notes req s)) Hq)
    as (l & Hr & Hp & _).
  rewrite Hs in Hp.
  exists d, l. repeat split.
  - exact Hs.
  - now rewrite Ht.
  - exact Hr.
  - exact Hp.
  - apply Permutation_in with (l := (notes s ++ [d])%list);
      [now apply Permutation_sym |].
    apply in_or_app. right. now left.
  - rewrite (Permutation_length Hp), length_app. cbn [length]. lia.
Qed.

(** X18: [GET /api/folders/:id] on a stored folder answers 200 with its
    identifier and name and leaves the store as it was. *)
Theorem get_folders_id_found (req : Request) (s : Store) (d : Folder) :
  well_formed (params_id req) ->
  stored_folder (params_id req) s = Some d ->
  response textScore GET_folders_id req s =
    mkResponse 200 None
      (JFolder (mkFolderJson (ObjectId.toHexString (folder_id d))
                  (folder_name d)))
  /\ ObjectId.cast (params_id req) = Some (folder_id d)
  /\ store (serve textScore GET_folders_id req s) = s.
Proof.
  unfold well_formed, stored_folder. intros Hv Hd.
  destruct (ObjectId.cast (params_id req)) as [n |] eqn:Hc; [| discriminate].
  assert (Hid : folder_id d = n).
  { apply find_some in Hd. destruct Hd as [_ Hd]. now apply N.eqb_eq. }
  open_route. rewrite Hv. cbn [negb run]. unfold folder_findById.
  rewrite Hc, Hd. subst n. repeat split.
Qed.

End Listing.

Lemma post_notes_then_list_witness :
  exists d l,
    notes (store (serve textScore POST_notes
                    (request "" None cats_article) db))
    = (notes db ++ [d])%list
    /\ Some (note_title d) = Some "The best article about cats ever!"
    /\ response textScore GET_notes (request "" None no_body)
         (store (serve textScore POST_notes
                   (request "" None cats_article) db)) =
       mkResponse 200 None (JNotes (map list_view l))
    /\ Permutation l (notes db ++ [d])
    /\ In d l
    /\ length l = 4%nat.
Proof.
  exact (post_notes_then_list textScore (request "" None cats_article)
           (request "" None no_body) db eq_refl eq_refl).
Defined.

Lemma get_folders_id_found_witness :
  response textScore GET_folders_id (folders_request (id_of 8) no_body) db =
    mkResponse 200 None (JFolder (mkFolderJson (id_of 8) "Personal"))
  /\ ObjectId.cast (id_of 8) = Some 8
  /\ store (serve textScore GET_folders_id
              (folders_request (id_of 8) no_body) db) = db.
Proof.
  exact (get_folders_id_found textScore (folders_request (id_of 8) no_body)
           db personal eq_refl eq_refl).
Defined.
